(** * vue-financial-tracker: the normalization, aggregation and import engine

    A shallow embedding of the script parts of [src/App.vue],
    [src/components/CsvImport.vue] and [src/components/FinancialList.vue],
    with the data model of [src/types.ts] in its revision that has the
    [type] and [date] of an entry.

    Conventions of the embedding:
    - a JavaScript [number] is an IEEE 754 binary64 value, modelled by Rocq's
      primitive [float] (same format, round to nearest even, one NaN);
    - a JavaScript string is a [string]; each character stands for one code
      unit, so only code units below 256 are representable;
    - [undefined] is [None] wherever a value may be missing at run time;
    - reactive [ref]s are plain values threaded through the handlers;
    - [crypto.randomUUID()] reads from an explicit supply of identifiers. *)

From stdpp Require Import base option list strings.
From Stdlib Require Import ZArith Floats Ascii.
From Stdlib Require String.

(** ** JavaScript numbers *)

Module JsNumber.
Local Open Scope Z_scope.

(** [ToBoolean] on a number: [+0], [-0] and [NaN] are falsy. *)
Definition truthy (x : float) : bool := negb (is_zero x || is_nan x).

(** [a || b] on numbers. *)
Definition or_else (a b : float) : float := if truthy a then a else b.

(** [a > b]. *)
Definition gt (a b : float) : bool := PrimFloat.ltb b a.

(** [Math.abs]. *)
Definition Math_abs (x : float) : float := PrimFloat.abs x.

(** The number nearest to [m * 10 ^ e] for a natural [m], as the
    conversion of a decimal literal rounds it (ties to even). *)
Definition of_decimal (m e : Z) : float :=
  match m with
  | Z.pos p =>
      if 0 <=? e
      then SF2Prim (binary_normalize prec emax (m * 10 ^ e) 0 false)
      else SF2Prim (SFdiv prec emax (S754_finite false p 0)
                      (S754_finite false (Z.to_pos (10 ^ (- e))) 0))
  | _ => 0%float
  end.

End JsNumber.

(** ** JavaScript strings *)

Module JsString.
Local Open Scope Z_scope.

Definition code (c : ascii) : N := N_of_ascii c.

(** White space and line terminators among the code units below 256:
    TAB, LF, VT, FF, CR, SP and NBSP. *)
Definition is_white_space (c : ascii) : bool :=
  let n := code c in
  ((9 <=? n) && (n <=? 13) || (n =? 32) || (n =? 160))%N.

Definition is_digit (c : ascii) : bool :=
  let n := code c in ((48 <=? n) && (n <=? 57))%N.

Definition digit_value (c : ascii) : Z := Z.of_N (code c) - 48.

(** [ToBoolean] on a string. *)
Definition truthy (s : string) : bool :=
  match s with EmptyString => false | String _ _ => true end.

Fixpoint trimStart (s : string) : string :=
  match s with
  | EmptyString => EmptyString
  | String c r => if is_white_space c then trimStart r else s
  end.

Fixpoint trimEnd (s : string) : string :=
  match s with
  | EmptyString => EmptyString
  | String c r =>
      match trimEnd r with
      | EmptyString => if is_white_space c then EmptyString else String c EmptyString
      | r' => String c r'
      end
  end.

(** [s.trim()] *)
Definition trim (s : string) : string := trimEnd (trimStart s).

(** [s.split(sep)] for a separator of one code unit. The result always
    has at least one element; the last branch is never taken. *)
Fixpoint split (sep : ascii) (s : string) : list string :=
  match s with
  | EmptyString => [EmptyString]
  | String c r =>
      if Ascii.eqb c sep then EmptyString :: split sep r
      else match split sep r with
           | h :: t => String c h :: t
           | [] => [String c EmptyString]
           end
  end.

(** [a.join(sep)] on an array of strings. *)
Fixpoint join (sep : string) (a : list string) : string :=
  match a with
  | [] => EmptyString
  | [x] => x
  | x :: r => x +:+ sep +:+ join sep r
  end.

(** The longest run of decimal digits at the front of [s], as digit
    values, and what follows it. *)
Fixpoint span_digits (s : string) : list Z * string :=
  match s with
  | String c r =>
      if is_digit c
      then let '(ds, rest) := span_digits r in (digit_value c :: ds, rest)
      else ([], s)
  | EmptyString => ([], s)
  end.

Definition digits_value (ds : list Z) : Z :=
  fold_left (fun acc d => 10 * acc + d) ds 0.

(** [ExponentPart]: [e] or [E], an optional sign, at least one digit.
    When it is not there the literal ends before it. *)
Definition exponent_part (s : string) : Z :=
  match s with
  | String c r =>
      if Ascii.eqb c "e" || Ascii.eqb c "E" then
        match r with
        | String "-" r' =>
            match span_digits r' with
            | ([], _) => 0
            | (ds, _) => - digits_value ds
            end
        | String "+" r' => digits_value (span_digits r').1
        | _ => digits_value (span_digits r).1
        end
      else 0
  | EmptyString => 0
  end.

(** The longest prefix of [s] that is a [StrUnsignedDecimalLiteral],
    and its value. *)
Definition unsigned_literal (s : string) : float :=
  if String.prefix "Infinity" s then infinity
  else
    let '(ip, r1) := span_digits s in
    let '(fp, r2) :=
      match r1 with
      | String "." r => span_digits r
      | _ => ([], r1)
      end in
    match ip ++ fp with
    | [] => nan
    | ds => JsNumber.of_decimal (digits_value ds)
              (exponent_part r2 - Z.of_nat (length fp))
    end.

(** [parseFloat(s)] *)
Definition parseFloat (s : string) : float :=
  match trimStart s with
  | String "-" r => (- unsigned_literal r)%float
  | String "+" r => unsigned_literal r
  | r => unsigned_literal r
  end.

End JsString.

(** ** JavaScript dates *)

Module JsDate.
Local Open Scope Z_scope.

(** The object built by [new Date(arg)] from a string. How a string
    that is not in the date-time format of the language is read is left
    to the implementation, so the object is kept as its argument, and
    [parse] below reads the one form the language fixes that the
    statement import produces: the date-only form [YYYY-MM-DD]. *)
Inductive t : Type := NewDate (arg : string).

Inductive parsed : Type :=
| TimeValue (ms : Z)   (** a valid date: milliseconds since the epoch, UTC *)
| InvalidDate          (** the time value is NaN *)
| OtherFormat.         (** not of the form [YYYY-MM-DD], or a day such as
                           30 February that implementations disagree on *)

Definition isLeapYear (y : Z) : bool :=
  (y mod 4 =? 0) && (negb (y mod 100 =? 0) || (y mod 400 =? 0)).

Definition DaysInMonth (y m : Z) : Z :=
  if m =? 2 then (if isLeapYear y then 29 else 28)
  else if (m =? 4) || (m =? 6) || (m =? 9) || (m =? 11) then 30
  else 31.

(** Day number of 1 January of year [y]. *)
Definition DayFromYear (y : Z) : Z :=
  365 * (y - 1970) + (y - 1969) / 4 - (y - 1901) / 100 + (y - 1601) / 400.

Fixpoint days_before_month (y : Z) (m : nat) : Z :=
  match m with
  | O => 0
  | S k => days_before_month y k + DaysInMonth y (Z.of_nat m)
  end.

Definition msPerDay : Z := 86400000.

Definition number (ds : list ascii) : Z :=
  JsString.digits_value (JsString.digit_value <$> ds).

Definition parse (s : string) : parsed :=
  match String.list_ascii_of_string s with
  | [y1; y2; y3; y4; s1; m1; m2; s2; d1; d2] =>
      if forallb JsString.is_digit [y1; y2; y3; y4; m1; m2; d1; d2]
         && Ascii.eqb s1 "-" && Ascii.eqb s2 "-"
      then
        let y := number [y1; y2; y3; y4] in
        let m := number [m1; m2] in
        let d := number [d1; d2] in
        if (m <? 1) || (12 <? m) || (d <? 1) || (31 <? d) then InvalidDate
        else if DaysInMonth y m <? d then OtherFormat
        else TimeValue ((DayFromYear y + days_before_month y (Z.to_nat (m - 1))
                         + (d - 1)) * msPerDay)
      else OtherFormat
  | _ => OtherFormat
  end.

Definition time_value (d : t) : parsed :=
  match d with NewDate arg => parse arg end.

End JsDate.

(** ** The data model ([src/types.ts]) *)

Module TaxElement.
Record t : Type := mk {
  id : string;
  name : string;
  percentage : float
}.
End TaxElement.

Inductive EntryType : Type := income | expense.

Global Instance EntryType_eq_dec : EqDecision EntryType.
Proof. solve_decision. Defined.

Module FinancialEntry.
(** [frequency] is a string at run time and [calculateMonthlyAmount]
    switches on it with a default branch, so it is kept as a string.
    [description] is [values[2]] in the statement import, which is
    [undefined] on a short row. [taxes] is optional in the interface;
    [type] and [date] are absent from the entries the entry form adds. *)
Record t : Type := mk {
  id : string;
  description : option string;
  amount : float;
  frequency : string;
  taxes : option (list TaxElement.t);
  type : option EntryType;
  date : option JsDate.t
}.
End FinancialEntry.

Module Summary.
Record t : Type := mk {
  totalIncome : float;
  totalExpenses : float;
  totalTaxes : float;
  netIncome : float;
  balance : float
}.
End Summary.

(** ** Parsed JSON documents *)

Module Json.

(** What [JSON.parse] returns. An object is the list of its members,
    each name once. *)
#[local] Unset Elimination Schemes.
Inductive value : Type :=
| Null
| Bool (b : bool)
| Number (x : float)
| Str (s : string)
| Array (elements : list value)
| Object (members : list (string * value)).
#[local] Set Elimination Schemes.

Fixpoint assoc (k : string) (members : list (string * value)) : option value :=
  match members with
  | [] => None
  | (k', v) :: rest => if decide (k' = k) then Some v else assoc k rest
  end.

(** [v.k] for a member name [k] that no prototype provides (such as
    [income] and [expenses]). The outer [None] is the [TypeError] of
    reading a property of [null]; the inner [None] is [undefined]. *)
Definition get (v : value) (k : string) : option (option value) :=
  match v with
  | Null => None
  | Object members => Some (assoc k members)
  | _ => Some None
  end.

(** [ToBoolean] of a property read. *)
Definition truthy (v : option value) : bool :=
  match v with
  | None | Some Null => false
  | Some (Bool b) => b
  | Some (Number x) => JsNumber.truthy x
  | Some (Str s) => JsString.truthy s
  | Some (Array _) | Some (Object _) => true
  end.

(** [Array.isArray] *)
Definition isArray (v : option value) : bool :=
  match v with Some (Array _) => true | _ => false end.

End Json.

(** ** [src/App.vue] *)

Module App.
Local Open Scope float_scope.

(** The two refs [incomeEntries] and [expenseEntries]. The element type
    is a parameter because [importData] stores what the document holds
    without looking at it. *)
Record State (E : Type) : Type := mkState {
  incomeEntries : list E;
  expenseEntries : list E
}.
Arguments mkState {E}.
Arguments incomeEntries {E}.
Arguments expenseEntries {E}.

Definition calculateMonthlyAmount (entry : FinancialEntry.t) : float :=
  let frequency := FinancialEntry.frequency entry in
  if String.eqb frequency "daily" then FinancialEntry.amount entry * 30
  else if String.eqb frequency "weekly" then FinancialEntry.amount entry * 4
  else if String.eqb frequency "yearly" then FinancialEntry.amount entry / 12
  else FinancialEntry.amount entry.

Definition calculateTaxAmount (monthlyAmount : float)
    (taxes : option (list TaxElement.t)) : float :=
  match taxes with
  | None => 0
  | Some taxes =>
      if Nat.eqb (length taxes) 0 then 0
      else fold_left (fun sum tax =>
                        sum + monthlyAmount * TaxElement.percentage tax / 100)
             taxes 0
  end.

(** The accumulator of the reduction over the income entries. *)
Record IncomeDetails : Type := mkDetails { total : float; taxes : float }.

Definition summary (st : State FinancialEntry.t) : Summary.t :=
  let incomeDetails :=
    fold_left (fun acc entry =>
                 let monthlyAmount := calculateMonthlyAmount entry in
                 let taxAmount :=
                   calculateTaxAmount monthlyAmount (FinancialEntry.taxes entry) in
                 {| total := total acc + monthlyAmount;
                    taxes := taxes acc + taxAmount |})
      (incomeEntries st) {| total := 0; taxes := 0 |} in
  let totalExpenses :=
    fold_left (fun sum entry => sum + calculateMonthlyAmount entry)
      (expenseEntries st) 0 in
  {| Summary.totalIncome := total incomeDetails;
     Summary.totalTaxes := taxes incomeDetails;
     Summary.totalExpenses := totalExpenses;
     Summary.netIncome := total incomeDetails - taxes incomeDetails;
     Summary.balance := total incomeDetails - taxes incomeDetails - totalExpenses |}.

Section Handlers.
Context {E : Type}.

Definition addIncome (entry : E) (st : State E) : State E :=
  {| incomeEntries := incomeEntries st ++ [entry];
     expenseEntries := expenseEntries st |}.

Definition addExpense (entry : E) (st : State E) : State E :=
  {| incomeEntries := incomeEntries st;
     expenseEntries := expenseEntries st ++ [entry] |}.

Definition removeData (st : State E) : State E :=
  {| incomeEntries := []; expenseEntries := [] |}.
End Handlers.

Abbreviation Entries := (State FinancialEntry.t).

Definition removeIncome (id : string) (st : Entries) : Entries :=
  {| incomeEntries :=
       filter (fun entry => FinancialEntry.id entry <> id) (incomeEntries st);
     expenseEntries := expenseEntries st |}.

Definition removeExpense (id : string) (st : Entries) : Entries :=
  {| incomeEntries := incomeEntries st;
     expenseEntries :=
       filter (fun entry => FinancialEntry.id entry <> id) (expenseEntries st) |}.

(** Assignments to one field of an entry object. *)
Definition set_taxes (taxes : list TaxElement.t) (e : FinancialEntry.t) :=
  {| FinancialEntry.id := FinancialEntry.id e;
     FinancialEntry.description := FinancialEntry.description e;
     FinancialEntry.amount := FinancialEntry.amount e;
     FinancialEntry.frequency := FinancialEntry.frequency e;
     FinancialEntry.taxes := Some taxes;
     FinancialEntry.type := FinancialEntry.type e;
     FinancialEntry.date := FinancialEntry.date e |}.

Definition set_frequency (frequency : string) (e : FinancialEntry.t) :=
  {| FinancialEntry.id := FinancialEntry.id e;
     FinancialEntry.description := FinancialEntry.description e;
     FinancialEntry.amount := FinancialEntry.amount e;
     FinancialEntry.frequency := frequency;
     FinancialEntry.taxes := FinancialEntry.taxes e;
     FinancialEntry.type := FinancialEntry.type e;
     FinancialEntry.date := FinancialEntry.date e |}.

Definition set_description (description : string) (e : FinancialEntry.t) :=
  {| FinancialEntry.id := FinancialEntry.id e;
     FinancialEntry.description := Some description;
     FinancialEntry.amount := FinancialEntry.amount e;
     FinancialEntry.frequency := FinancialEntry.frequency e;
     FinancialEntry.taxes := FinancialEntry.taxes e;
     FinancialEntry.type := FinancialEntry.type e;
     FinancialEntry.date := FinancialEntry.date e |}.

Definition set_amount (amount : float) (e : FinancialEntry.t) :=
  {| FinancialEntry.id := FinancialEntry.id e;
     FinancialEntry.description := FinancialEntry.description e;
     FinancialEntry.amount := amount;
     FinancialEntry.frequency := FinancialEntry.frequency e;
     FinancialEntry.taxes := FinancialEntry.taxes e;
     FinancialEntry.type := FinancialEntry.type e;
     FinancialEntry.date := FinancialEntry.date e |}.

(** [entries.find(entry => entry.id === entryId)] followed by an
    assignment to the found object: the object sits at one place of the
    array (the handlers never store one object twice), so the array
    afterwards has the changed object at the index of the first match. *)
Definition find_and_assign (entryId : string)
    (assign : FinancialEntry.t -> FinancialEntry.t)
    (entries : list FinancialEntry.t) : list FinancialEntry.t :=
  match list_find (fun entry => FinancialEntry.id entry = entryId) entries with
  | Some (i, entry) => <[i := assign entry]> entries
  | None => entries
  end.

Definition updateIncomeTaxes (entryId : string) (taxes : list TaxElement.t)
    (st : Entries) : Entries :=
  {| incomeEntries := find_and_assign entryId (set_taxes taxes) (incomeEntries st);
     expenseEntries := expenseEntries st |}.

Definition updateIncomeFrequency (entryId : string) (frequency : string)
    (st : Entries) : Entries :=
  {| incomeEntries :=
       find_and_assign entryId (set_frequency frequency) (incomeEntries st);
     expenseEntries := expenseEntries st |}.

Definition updateExpenseFrequency (entryId : string) (frequency : string)
    (st : Entries) : Entries :=
  {| incomeEntries := incomeEntries st;
     expenseEntries :=
       find_and_assign entryId (set_frequency frequency) (expenseEntries st) |}.

Definition updateIncomeDescription (entryId : string) (description : string)
    (st : Entries) : Entries :=
  {| incomeEntries :=
       find_and_assign entryId (set_description description) (incomeEntries st);
     expenseEntries := expenseEntries st |}.

Definition updateIncomeAmount (entryId : string) (amount : float)
    (st : Entries) : Entries :=
  {| incomeEntries := find_and_assign entryId (set_amount amount) (incomeEntries st);
     expenseEntries := expenseEntries st |}.

Definition updateExpenseDescription (entryId : string) (description : string)
    (st : Entries) : Entries :=
  {| incomeEntries := incomeEntries st;
     expenseEntries :=
       find_and_assign entryId (set_description description) (expenseEntries st) |}.

Definition updateExpenseAmount (entryId : string) (amount : float)
    (st : Entries) : Entries :=
  {| incomeEntries := incomeEntries st;
     expenseEntries :=
       find_and_assign entryId (set_amount amount) (expenseEntries st) |}.

Definition handleCsvImport (entries : list FinancialEntry.t) (st : Entries)
    : Entries :=
  let incomes := filter (fun entry => FinancialEntry.type entry = Some income) entries in
  let expenses := filter (fun entry => FinancialEntry.type entry = Some expense) entries in
  {| incomeEntries := incomeEntries st ++ incomes;
     expenseEntries := expenseEntries st ++ expenses |}.

(** *** Import and restore of the backup document *)

Inductive Error : Type := SyntaxError | TypeError.

(** What the user or the developer gets to see. *)
Inductive Effect : Type :=
| console_error (message : string) (error : Error)
| alert (message : string).

(** A block of statements over the two refs that may throw: it leaves a
    state behind either way. *)
Definition Block (E A : Type) : Type := State E -> State E * (Error + A).

Definition ret {E A} (a : A) : Block E A := fun st => (st, inr a).

Definition throw {E A} (err : Error) : Block E A := fun st => (st, inl err).

Definition bind {E A B} (m : Block E A) (k : A -> Block E B) : Block E B :=
  fun st =>
    match m st with
    | (st', inr a) => k a st'
    | (st', inl err) => (st', inl err)
    end.

Definition or_throw {E A} (err : Error) (o : option A) : Block E A :=
  match o with Some a => ret a | None => throw err end.

Definition assign_incomeEntries {E} (entries : list E) : Block E unit :=
  fun st => ({| incomeEntries := entries; expenseEntries := expenseEntries st |},
             inr tt).

Definition assign_expenseEntries {E} (entries : list E) : Block E unit :=
  fun st => ({| incomeEntries := incomeEntries st; expenseEntries := entries |},
             inr tt).

#[local] Notation "'let*' x ':=' m 'in' k" := (bind m (fun x => k))
  (at level 10, x name, m at level 100, k at level 200, only parsing).

Section Restore.
Context {E : Type}.

(** [JSON.parse] of the platform; [None] when it throws. *)
Variable JSON_parse : string -> option Json.value.

(** The parsed value taken as [FinancialEntry[]]: the assignment to
    the ref checks nothing. *)
Variable as_entries : Json.value -> list E.

Definition assign_when_array (v : option Json.value)
    (assign : list E -> Block E unit) : Block E unit :=
  if Json.truthy v && Json.isArray v
  then match v with
       | Some a => assign (as_entries a)
       | None => ret tt
       end
  else ret tt.

(** The body of the [try] block, the same in [importData] and in
    [loadFromLocalStorage]. *)
Definition load_document (text : string) : Block E unit :=
  let* data := or_throw SyntaxError (JSON_parse text) in
  let* income := or_throw TypeError (Json.get data "income") in
  let* _ := assign_when_array income assign_incomeEntries in
  let* expenses := or_throw TypeError (Json.get data "expenses") in
  assign_when_array expenses assign_expenseEntries.

(** [importData]: [files] are the texts of the chosen files; the
    handler of [reader.onload] runs on the first one. *)
Definition importData (files : list string) (st : State E)
    : State E * list Effect :=
  match files with
  | [] => (st, [])
  | text :: _ =>
      match load_document text st with
      | (st', inr _) => (st', [])
      | (st', inl error) =>
          (st', [console_error "Error importing data:" error;
                 alert "Error importing data. Please check the file format."])
      end
  end.

(** [loadFromLocalStorage]: [savedData] is what
    [localStorage.getItem] returns, [None] for [null]. *)
Definition loadFromLocalStorage (savedData : option string) (st : State E)
    : State E * list Effect :=
  match savedData with
  | Some text =>
      if JsString.truthy text then
        match load_document text st with
        | (st', inr _) => (st', [])
        | (st', inl error) =>
            (st', [console_error "Error loading data from localStorage:" error])
        end
      else (st, [])
  | None => (st, [])
  end.
End Restore.

End App.

(** ** [src/components/CsvImport.vue] *)

Module CsvImport.

Section Parse.
(** [randomUUID k] is what the [k]-th call of [crypto.randomUUID()]
    returns during one run of the parser, counting from 0. *)
Variable randomUUID : nat -> string.

(** [values[i] ? parseFloat(values[i]) : 0] *)
Definition number_at (values : list string) (i : nat) : float :=
  match values !! i with
  | Some v => if JsString.truthy v then JsString.parseFloat v else 0%float
  | None => 0%float
  end.

(** The callback of [map]. [None] stands for the [TypeError] of
    calling [split] on [undefined]. *)
Definition row (id : string) (line : string) : option FinancialEntry.t :=
  let values := JsString.split ";" line in
  let debit := number_at values 8 in
  let credit := number_at values 9 in
  let type := if JsNumber.truthy debit then expense else income in
  let amount := JsNumber.Math_abs (JsNumber.or_else debit credit) in
  match values !! 0%nat with
  | Some v0 =>
      Some {| FinancialEntry.id := id;
              FinancialEntry.description := values !! 2%nat;
              FinancialEntry.amount := amount;
              FinancialEntry.frequency := "monthly";
              FinancialEntry.taxes := Some [];
              FinancialEntry.type := Some type;
              FinancialEntry.date :=
                Some (JsDate.NewDate
                        (JsString.join "-" (rev (JsString.split "/" v0)))) |}
  | None => None
  end.

(** [rows.map(callback)], the [k]-th identifier going to the first
    row. An exception in a callback ends the whole call. *)
Fixpoint map_rows (k : nat) (rows : list string)
    : option (list FinancialEntry.t) :=
  match rows with
  | [] => Some []
  | line :: rest =>
      match row (randomUUID k) line with
      | Some entry =>
          match map_rows (S k) rest with
          | Some entries => Some (entry :: entries)
          | None => None
          end
      | None => None
      end
  end.

Definition keep (entry : FinancialEntry.t) : bool :=
  JsNumber.gt (FinancialEntry.amount entry) 0.

(** The rows of the statement: [lines.slice(1).filter(line => line.trim())] *)
Definition data_rows (lines : list string) : list string :=
  filter (fun line => JsString.truthy (JsString.trim line)) (drop 1 lines).

(** [lines.slice(1).filter(..).map(..).filter(entry => entry.amount > 0)] *)
Definition entries_of_lines (lines : list string)
    : option (list FinancialEntry.t) :=
  match map_rows 0 (data_rows lines) with
  | Some entries => Some (filter (fun entry => keep entry) entries)
  | None => None
  end.

(** The handler of [reader.onload]: the entries it emits, or [None]
    when it throws. *)
Definition parseCSV (text : string) : option (list FinancialEntry.t) :=
  let lines := JsString.split (ascii_of_nat 10) text in
  entries_of_lines lines.
End Parse.

End CsvImport.

(** ** [src/components/FinancialList.vue] *)

Module FinancialList.

(** What the component emits to its parent. *)
Inductive Emit : Type :=
| emit_add (entry : FinancialEntry.t)
| emit_remove (id : string)
| emit_updateTaxes (entryId : string) (taxes : list TaxElement.t)
| emit_updateFrequency (entryId : string) (frequency : string)
| emit_updateAmount (entryId : string) (amount : float)
| emit_updateDescription (entryId : string) (description : string).

(** The refs of the component that hold strings, identifiers and tax
    lists ([null] is [None]). The refs bound to the number inputs
    ([amount], [editingAmount], [taxPercentage]) and the functions that
    read them ([addEntry], [addTax], [startEditingAmount], [saveAmount])
    are left out: what such a ref holds is decided by the framework. *)
Record State : Type := mkState {
  showTaxModal : bool;
  selectedEntryId : option string;
  currentTaxes : list TaxElement.t;
  editingFrequencyId : option string;
  editingDescriptionId : option string;
  editingDescription : option string
}.

(** [currentTaxes.value = [...(entry.taxes || [])]] copies the list, an
    absent one as the empty list. *)
Definition openTaxModal (entry : FinancialEntry.t) (s : State) : State :=
  {| showTaxModal := true;
     selectedEntryId := Some (FinancialEntry.id entry);
     currentTaxes := default [] (FinancialEntry.taxes entry);
     editingFrequencyId := editingFrequencyId s;
     editingDescriptionId := editingDescriptionId s;
     editingDescription := editingDescription s |}.

Definition removeTax (taxId : string) (s : State) : State :=
  {| showTaxModal := showTaxModal s;
     selectedEntryId := selectedEntryId s;
     currentTaxes := filter (fun tax => TaxElement.id tax <> taxId) (currentTaxes s);
     editingFrequencyId := editingFrequencyId s;
     editingDescriptionId := editingDescriptionId s;
     editingDescription := editingDescription s |}.

(** [if (selectedEntryId.value)]: [null] and the empty string are falsy. *)
Definition saveTaxes (s : State) : State * list Emit :=
  ({| showTaxModal := false;
      selectedEntryId := None;
      currentTaxes := [];
      editingFrequencyId := editingFrequencyId s;
      editingDescriptionId := editingDescriptionId s;
      editingDescription := editingDescription s |},
   match selectedEntryId s with
   | Some id => if JsString.truthy id then [emit_updateTaxes id (currentTaxes s)] else []
   | None => []
   end).

Definition calculateTotalTaxPercentage (taxes : option (list TaxElement.t)) : float :=
  match taxes with
  | None => 0%float
  | Some taxes =>
      if Nat.eqb (length taxes) 0 then 0%float
      else fold_left (fun sum tax => PrimFloat.add sum (TaxElement.percentage tax))
             taxes 0%float
  end.

Definition startEditingFrequency (entryId : string) (s : State) : State :=
  {| showTaxModal := showTaxModal s;
     selectedEntryId := selectedEntryId s;
     currentTaxes := currentTaxes s;
     editingFrequencyId := Some entryId;
     editingDescriptionId := editingDescriptionId s;
     editingDescription := editingDescription s |}.

(** [value] is [select.value] of the event's target. *)
Definition updateFrequency (id : string) (value : string) : list Emit :=
  [emit_updateFrequency id value].

(** [entry.description] may be [undefined] at run time, and so may the
    ref after this. *)
Definition startEditingDescription (entry : FinancialEntry.t) (s : State) : State :=
  {| showTaxModal := showTaxModal s;
     selectedEntryId := selectedEntryId s;
     currentTaxes := currentTaxes s;
     editingFrequencyId := editingFrequencyId s;
     editingDescriptionId := Some (FinancialEntry.id entry);
     editingDescription := FinancialEntry.description entry |}.

(** [None] stands for the [TypeError] of calling [trim] on [undefined]. *)
Definition saveDescription (id : string) (s : State) : option (State * list Emit) :=
  match editingDescription s with
  | Some text =>
      Some ({| showTaxModal := showTaxModal s;
               selectedEntryId := selectedEntryId s;
               currentTaxes := currentTaxes s;
               editingFrequencyId := editingFrequencyId s;
               editingDescriptionId := None;
               editingDescription := editingDescription s |},
            if JsString.truthy (JsString.trim text)
            then [emit_updateDescription id text]
            else [])
  | None => None
  end.

End FinancialList.

(** ** The listeners of the two lists in the template of [src/App.vue] *)

Module Listeners.
Import FinancialList.

(** The list titled Income Sources. *)
Definition income (ev : Emit) (st : App.Entries) : App.Entries :=
  match ev with
  | emit_add entry => App.addIncome entry st
  | emit_remove id => App.removeIncome id st
  | emit_updateTaxes entryId taxes => App.updateIncomeTaxes entryId taxes st
  | emit_updateFrequency entryId frequency => App.updateIncomeFrequency entryId frequency st
  | emit_updateDescription entryId description =>
      App.updateIncomeDescription entryId description st
  | emit_updateAmount entryId amount => App.updateIncomeAmount entryId amount st
  end.

(** The list titled Expenses; it has no listener for [update-taxes]. *)
Definition expense (ev : Emit) (st : App.Entries) : App.Entries :=
  match ev with
  | emit_add entry => App.addExpense entry st
  | emit_remove id => App.removeExpense id st
  | emit_updateTaxes _ _ => st
  | emit_updateFrequency entryId frequency => App.updateExpenseFrequency entryId frequency st
  | emit_updateDescription entryId description =>
      App.updateExpenseDescription entryId description st
  | emit_updateAmount entryId amount => App.updateExpenseAmount entryId amount st
  end.

(** The events of one call, delivered in order. *)
Definition deliver (listener : Emit -> App.Entries -> App.Entries)
    (evs : list Emit) (st : App.Entries) : App.Entries :=
  fold_left (fun st ev => listener ev st) evs st.

End Listeners.

(** ** Vocabulary of the statements *)

(** The sum of a sequence of numbers, added from the left starting at 0,
    which is the order in which [reduce] adds them. *)
Definition sum_floats (l : list float) : float := fold_left PrimFloat.add l 0%float.

(** The four members of the frequency enumeration. *)
Definition frequencies : list string := ["daily"; "weekly"; "monthly"; "yearly"].

(** [handler] looks for the first entry of the list [target] whose id is
    the given one and applies [assign] to it: the other list stays as it
    is; with no entry of that id the whole state stays as it is; otherwise
    the list is the old one with the first such entry replaced by its
    assigned version, every other place being left alone. *)
Definition updates_first_match
    (handler : string -> App.Entries -> App.Entries)
    (target other : App.Entries -> list FinancialEntry.t)
    (assign : FinancialEntry.t -> FinancialEntry.t) : Prop :=
  forall (entryId : string) (st : App.Entries),
    other (handler entryId st) = other st
    /\ ((forall e, e ∈ target st -> FinancialEntry.id e <> entryId) ->
        handler entryId st = st)
    /\ (forall before entry after,
          target st = before ++ entry :: after ->
          (forall e, e ∈ before -> FinancialEntry.id e <> entryId) ->
          FinancialEntry.id entry = entryId ->
          target (handler entryId st) = before ++ assign entry :: after).

(** [handler] removes from the list [target] the entries whose id is the
    given one and nothing else: the other list stays as it is; what is
    left is the old list with some places deleted, in the old order; no
    entry of that id is left; every entry of another id is still there; and
    the places deleted are as many as the entries of that id. *)
Definition removes_exactly
    (handler : string -> App.Entries -> App.Entries)
    (target other : App.Entries -> list FinancialEntry.t) : Prop :=
  forall (id : string) (st : App.Entries),
    other (handler id st) = other st
    /\ target (handler id st) `sublist_of` target st
    /\ Forall (fun e => FinancialEntry.id e <> id) (target (handler id st))
    /\ (forall e, e ∈ target st -> FinancialEntry.id e <> id ->
                  e ∈ target (handler id st))
    /\ length (target (handler id st))
         + length (filter (fun e => FinancialEntry.id e = id) (target st))
       = length (target st).

(** Two entries that agree on every field but the named one. *)
Definition same_but_taxes (e e' : FinancialEntry.t) : Prop :=
  FinancialEntry.id e' = FinancialEntry.id e
  /\ FinancialEntry.description e' = FinancialEntry.description e
  /\ FinancialEntry.amount e' = FinancialEntry.amount e
  /\ FinancialEntry.frequency e' = FinancialEntry.frequency e
  /\ FinancialEntry.type e' = FinancialEntry.type e
  /\ FinancialEntry.date e' = FinancialEntry.date e.

Definition same_but_frequency (e e' : FinancialEntry.t) : Prop :=
  FinancialEntry.id e' = FinancialEntry.id e
  /\ FinancialEntry.description e' = FinancialEntry.description e
  /\ FinancialEntry.amount e' = FinancialEntry.amount e
  /\ FinancialEntry.taxes e' = FinancialEntry.taxes e
  /\ FinancialEntry.type e' = FinancialEntry.type e
  /\ FinancialEntry.date e' = FinancialEntry.date e.

Definition same_but_description (e e' : FinancialEntry.t) : Prop :=
  FinancialEntry.id e' = FinancialEntry.id e
  /\ FinancialEntry.amount e' = FinancialEntry.amount e
  /\ FinancialEntry.frequency e' = FinancialEntry.frequency e
  /\ FinancialEntry.taxes e' = FinancialEntry.taxes e
  /\ FinancialEntry.type e' = FinancialEntry.type e
  /\ FinancialEntry.date e' = FinancialEntry.date e.

Definition same_but_amount (e e' : FinancialEntry.t) : Prop :=
  FinancialEntry.id e' = FinancialEntry.id e
  /\ FinancialEntry.description e' = FinancialEntry.description e
  /\ FinancialEntry.frequency e' = FinancialEntry.frequency e
  /\ FinancialEntry.taxes e' = FinancialEntry.taxes e
  /\ FinancialEntry.type e' = FinancialEntry.type e
  /\ FinancialEntry.date e' = FinancialEntry.date e.

(** The array that the member [k] of a parsed document holds, when the
    document has such a member and it is an array. *)
Definition array_member (data : Json.value) (k : string) : option Json.value :=
  match Json.get data k with
  | Some (Some (Json.Array a)) => Some (Json.Array a)
  | _ => None
  end.

(** The two lists after the load of a document: each one is replaced by
    the array of its member, or kept when the member is no array. *)
Definition restored {E} (as_entries : Json.value -> list E) (data : Json.value)
    (st : App.State E) : App.State E :=
  {| App.incomeEntries :=
       match array_member data "income" with
       | Some a => as_entries a
       | None => App.incomeEntries st
       end;
     App.expenseEntries :=
       match array_member data "expenses" with
       | Some a => as_entries a
       | None => App.expenseEntries st
       end |}.

(** The texts and documents of the examples. A double quote is written
    by its code. *)
Definition quoted (s : string) : string :=
  String (ascii_of_nat 34) s +:+ String (ascii_of_nat 34) EmptyString.

Definition scenario_D_text : string :=
  "{" +:+ quoted "income" +:+ ": " +:+ quoted "not-an-array" +:+ "}".

Definition scenario_D_document : Json.value :=
  Json.Object [("income", Json.Str "not-an-array")].

Definition half_malformed_text : string :=
  "{" +:+ quoted "income" +:+ ": " +:+ quoted "not-an-array" +:+ ", "
  +:+ quoted "expenses" +:+ ": []}".

Definition half_malformed_document : Json.value :=
  Json.Object [("income", Json.Str "not-an-array"); ("expenses", Json.Array [])].

(** [JSON.parse] on the texts of the examples; every other text is taken
    not to be JSON. *)
Definition sample_JSON_parse (text : string) : option Json.value :=
  if decide (text = scenario_D_text) then Some scenario_D_document
  else if decide (text = half_malformed_text) then Some half_malformed_document
  else None.

(** Entries kept as the parsed objects they are. *)
Definition elements_of (v : Json.value) : list Json.value :=
  match v with Json.Array a => a | _ => [] end.

Definition stored_entries : App.State Json.value :=
  {| App.incomeEntries :=
       [Json.Object [("id", Json.Str "i1"); ("description", Json.Str "Salary");
                     ("amount", Json.Number 1000); ("frequency", Json.Str "monthly")]];
     App.expenseEntries :=
       [Json.Object [("id", Json.Str "x1"); ("description", Json.Str "Food");
                     ("amount", Json.Number 100); ("frequency", Json.Str "weekly")]] |}.

(** What one row of the statement adds to the emitted entries: the entry
    of the callback when the last filter keeps it. *)
Definition emitted (id : string) (line : string) : list FinancialEntry.t :=
  match CsvImport.row id line with
  | Some entry => if CsvImport.keep entry then [entry] else []
  | None => []
  end.

(** The same for consecutive rows, the first of which gets the [k]-th
    identifier. *)
Fixpoint emitted_rows (randomUUID : nat -> string) (k : nat) (rows : list string)
    : list FinancialEntry.t :=
  match rows with
  | [] => []
  | line :: rest => emitted (randomUUID k) line ++ emitted_rows randomUUID (S k) rest
  end.

(** An entry with its identifier blanked. *)
Definition erase_id (e : FinancialEntry.t) : FinancialEntry.t :=
  {| FinancialEntry.id := "";
     FinancialEntry.description := FinancialEntry.description e;
     FinancialEntry.amount := FinancialEntry.amount e;
     FinancialEntry.frequency := FinancialEntry.frequency e;
     FinancialEntry.taxes := FinancialEntry.taxes e;
     FinancialEntry.type := FinancialEntry.type e;
     FinancialEntry.date := FinancialEntry.date e |}.

(** The statement parser as section 4.4 of the specification words it,
    for one data line. *)
Module StatementSpec.
Local Open Scope float_scope.

(** A column by its index; a missing field is the empty string. *)
Definition column (values : list string) (i : nat) : string :=
  default EmptyString (values !! i).

(** A column as a number; empty or unparseable is 0. *)
Definition number_of (field : string) : float :=
  match field with
  | EmptyString => 0
  | _ => let x := JsString.parseFloat field in if is_nan x then 0 else x
  end.

Definition entry_of_line (id : string) (line : string) : FinancialEntry.t :=
  let values := JsString.split ";" line in
  let debit := number_of (column values 8) in
  let credit := number_of (column values 9) in
  let date := JsString.join "-" (rev (JsString.split "/" (column values 0))) in
  if is_zero debit
  then {| FinancialEntry.id := id;
          FinancialEntry.description := Some (column values 2);
          FinancialEntry.amount := abs credit;
          FinancialEntry.frequency := "monthly";
          FinancialEntry.taxes := Some [];
          FinancialEntry.type := Some income;
          FinancialEntry.date := Some (JsDate.NewDate date) |}
  else {| FinancialEntry.id := id;
          FinancialEntry.description := Some (column values 2);
          FinancialEntry.amount := abs debit;
          FinancialEntry.frequency := "monthly";
          FinancialEntry.taxes := Some [];
          FinancialEntry.type := Some expense;
          FinancialEntry.date := Some (JsDate.NewDate date) |}.

(** An entry whose amount is 0 is dropped. *)
Definition entries_of_line (id : string) (line : string) : list FinancialEntry.t :=
  let entry := entry_of_line id line in
  if is_zero (FinancialEntry.amount entry) then [] else [entry].

Fixpoint entries_of_rows (randomUUID : nat -> string) (k : nat) (rows : list string)
    : list FinancialEntry.t :=
  match rows with
  | [] => []
  | line :: rest =>
      entries_of_line (randomUUID k) line ++ entries_of_rows randomUUID (S k) rest
  end.
End StatementSpec.

(** The line feed, and a supply of identifiers for the examples. *)
Definition LF : string := String (ascii_of_nat 10) EmptyString.

Definition sample_uuid (k : nat) : string :=
  "uuid-" +:+ String (ascii_of_nat (48 + k)) EmptyString.

(** The field of an entry that an event of the list sets, with the id it
    looks for; [None] for an event that adds or removes. *)
Inductive Field : Type := F_taxes | F_frequency | F_description | F_amount.

Definition updated (ev : FinancialList.Emit) : option (string * Field) :=
  match ev with
  | FinancialList.emit_updateTaxes entryId _ => Some (entryId, F_taxes)
  | FinancialList.emit_updateFrequency entryId _ => Some (entryId, F_frequency)
  | FinancialList.emit_updateDescription entryId _ => Some (entryId, F_description)
  | FinancialList.emit_updateAmount entryId _ => Some (entryId, F_amount)
  | _ => None
  end.

(** The assignment an update event makes to the entry it finds. *)
Definition assigned (ev : FinancialList.Emit) (e : FinancialEntry.t) : FinancialEntry.t :=
  match ev with
  | FinancialList.emit_updateTaxes _ taxes => App.set_taxes taxes e
  | FinancialList.emit_updateFrequency _ frequency => App.set_frequency frequency e
  | FinancialList.emit_updateDescription _ description => App.set_description description e
  | FinancialList.emit_updateAmount _ amount => App.set_amount amount e
  | _ => e
  end.

(** No entry of the list has the id. *)
Definition fresh (id : string) (entries : list FinancialEntry.t) : Prop :=
  forall e, e ∈ entries -> FinancialEntry.id e <> id.

(** Two entries that [summary] cannot tell apart as incomes: the same
    amount, frequency and taxes, an absent tax list counting as an empty
    one. As expenses the taxes do not count. *)
Definition same_as_income (e e' : FinancialEntry.t) : Prop :=
  FinancialEntry.amount e = FinancialEntry.amount e'
  /\ FinancialEntry.frequency e = FinancialEntry.frequency e'
  /\ default [] (FinancialEntry.taxes e) = default [] (FinancialEntry.taxes e').

(** An entry with a description that is not blank. *)
Definition described (e : FinancialEntry.t) : Prop :=
  exists d, FinancialEntry.description e = Some d
            /\ JsString.truthy (JsString.trim d) = true.

Definition same_as_expense (e e' : FinancialEntry.t) : Prop :=
  FinancialEntry.amount e = FinancialEntry.amount e'
  /\ FinancialEntry.frequency e = FinancialEntry.frequency e'.

(** The code unit [c] occurs in [s]. *)
Fixpoint occurs (c : ascii) (s : string) : bool :=
  match s with
  | EmptyString => false
  | String x r => Ascii.eqb x c || occurs c r
  end.

(** What the interface [FinancialEntry] promises of an entry, as far as
    the statement import goes: a description that is a string, an amount
    that is a number above 0, the monthly frequency, an empty tax list, a
    type and a date. *)
Definition imported_entry (e : FinancialEntry.t) : Prop :=
  is_Some (FinancialEntry.description e)
  /\ JsNumber.gt (FinancialEntry.amount e) 0 = true
  /\ is_nan (FinancialEntry.amount e) = false
  /\ FinancialEntry.frequency e = "monthly"
  /\ FinancialEntry.taxes e = Some []
  /\ (FinancialEntry.type e = Some income \/ FinancialEntry.type e = Some expense)
  /\ is_Some (FinancialEntry.date e).

(** A number that is not below zero: a zero of either sign, a positive
    number or [Infinity], and not NaN ([0 <= x] in the language). *)
Definition not_negative (x : float) : Prop := PrimFloat.leb 0 x = true.

(** The same on the values of the format. *)
Definition sf_not_negative (x : spec_float) : Prop :=
  match x with
  | S754_zero _ | S754_finite false _ _ | S754_infinity false => True
  | _ => False
  end.

(** ** Entries and statements of the examples *)

(** An entry whose frequency is none of the four. *)
Definition fortnightly_entry : FinancialEntry.t :=
  {| FinancialEntry.id := "e1";
     FinancialEntry.description := Some "Rent";
     FinancialEntry.amount := 100%float;
     FinancialEntry.frequency := "fortnightly";
     FinancialEntry.taxes := None;
     FinancialEntry.type := None;
     FinancialEntry.date := None |}.

(** Scenario A of the specification. *)
Definition scenario_A : App.Entries :=
  {| App.incomeEntries :=
       [ {| FinancialEntry.id := "i1";
            FinancialEntry.description := Some "Salary";
            FinancialEntry.amount := 1000%float;
            FinancialEntry.frequency := "monthly";
            FinancialEntry.taxes :=
              Some [ {| TaxElement.id := "t1"; TaxElement.name := "Tax";
                        TaxElement.percentage := 20%float |} ];
            FinancialEntry.type := None;
            FinancialEntry.date := None |} ];
     App.expenseEntries :=
       [ {| FinancialEntry.id := "x1";
            FinancialEntry.description := Some "Food";
            FinancialEntry.amount := 100%float;
            FinancialEntry.frequency := "weekly";
            FinancialEntry.taxes := None;
            FinancialEntry.type := None;
            FinancialEntry.date := None |} ] |}.

Definition entry_of (id : string) (amount : float) : FinancialEntry.t :=
  {| FinancialEntry.id := id;
     FinancialEntry.description := Some "Salary";
     FinancialEntry.amount := amount;
     FinancialEntry.frequency := "monthly";
     FinancialEntry.taxes := None;
     FinancialEntry.type := None;
     FinancialEntry.date := None |}.

Definition two_incomes : App.Entries :=
  {| App.incomeEntries := [entry_of "a" 10%float; entry_of "b" 20%float; entry_of "b" 30%float];
     App.expenseEntries := [entry_of "b" 40%float] |}.

(** A header and the line of scenario B. *)
Definition one_row_statement : string :=
  "Date;;Label;;;;;;Debit;Credit;" +:+ LF +:+ "01/03/2024;;Groceries;;;;;;45.50;;".

(** Three data lines, the second with a month that does not exist. *)
Definition bad_date_lines : list string :=
  ["01/03/2024;;Groceries;;;;;;45.50;;"; "01/13/2024;;Rent;;;;;;500;;";
   "02/03/2024;;Salary;;;;;;;1000;"].

(** An income with two taxes, a list component at rest, and one in which
    three spaces were typed as a description. *)
Definition taxed_entry : FinancialEntry.t :=
  {| FinancialEntry.id := "i1";
     FinancialEntry.description := Some "Salary";
     FinancialEntry.amount := 1000%float;
     FinancialEntry.frequency := "monthly";
     FinancialEntry.taxes :=
       Some [ {| TaxElement.id := "t1"; TaxElement.name := "Tax";
                 TaxElement.percentage := 20%float |};
              {| TaxElement.id := "t2"; TaxElement.name := "Levy";
                 TaxElement.percentage := 5%float |} ];
     FinancialEntry.type := None;
     FinancialEntry.date := None |}.

Definition closed_list : FinancialList.State :=
  {| FinancialList.showTaxModal := false; FinancialList.selectedEntryId := None; FinancialList.currentTaxes := [];
     FinancialList.editingFrequencyId := None; FinancialList.editingDescriptionId := None;
     FinancialList.editingDescription := Some EmptyString |}.

Definition typed_blank : FinancialList.State :=
  {| FinancialList.showTaxModal := false; FinancialList.selectedEntryId := None; FinancialList.currentTaxes := [];
     FinancialList.editingFrequencyId := None; FinancialList.editingDescriptionId := Some "a";
     FinancialList.editingDescription := Some "   " |}.

(** * The model of the platform functions on small inputs *)

Module ModelChecks.
Import JsString.

Example parseFloat_decimal : parseFloat "45.50" = 45.5%float.
Proof. reflexivity. Qed.

Example parseFloat_tenth : parseFloat "0.1" = 0x1.999999999999ap-4%float.
Proof. reflexivity. Qed.

Example parseFloat_prefix : parseFloat " 12abc" = 12%float.
Proof. reflexivity. Qed.

Example parseFloat_exponent : parseFloat "-2.5e-1;" = (-0.25)%float.
Proof. reflexivity. Qed.

Example parseFloat_no_number : parseFloat "abc" = nan /\ parseFloat "." = nan.
Proof. split; reflexivity. Qed.

Example parseFloat_negative_zero : parseFloat "-0" = neg_zero.
Proof. reflexivity. Qed.

Example parseFloat_overflow : parseFloat "1e400" = infinity.
Proof. reflexivity. Qed.

Example split_fields :
  split ";" "01/03/2024;;Groceries;;;;;;45.50;;"
  = ["01/03/2024"; ""; "Groceries"; ""; ""; ""; ""; ""; "45.50"; ""; ""].
Proof. reflexivity. Qed.

Example split_empty : split ";" "" = [""].
Proof. reflexivity. Qed.

Example trim_spaces : trim "  a b  " = "a b" /\ trim "   " = "".
Proof. split; reflexivity. Qed.

Example reversed_date : join "-" (rev (split "/" "01/03/2024")) = "2024-03-01".
Proof. reflexivity. Qed.

Example Date_parse_epoch :
  JsDate.parse "1970-01-01" = JsDate.TimeValue 0
  /\ JsDate.parse "2024-02-29" = JsDate.TimeValue 1709164800000
  /\ JsDate.parse "2023-02-29" = JsDate.OtherFormat
  /\ JsDate.parse "2024-00-10" = JsDate.InvalidDate.
Proof. repeat split; reflexivity. Qed.

Example handleCsvImport_appends :
  App.handleCsvImport
    [entry_of "a" 1%float;
     FinancialEntry.mk "b" None 2%float "monthly" (Some []) (Some income) None;
     FinancialEntry.mk "c" None 3%float "monthly" (Some []) (Some expense) None]
    scenario_A
  = {| App.incomeEntries :=
         App.incomeEntries scenario_A
         ++ [FinancialEntry.mk "b" None 2%float "monthly" (Some []) (Some income) None];
       App.expenseEntries :=
         App.expenseEntries scenario_A
         ++ [FinancialEntry.mk "c" None 3%float "monthly" (Some []) (Some expense) None] |}.
Proof. reflexivity. Qed.

End ModelChecks.

(** * Facts about binary64 arithmetic *)

Module FloatFacts.
Local Open Scope float_scope.

Lemma Prim2SF_one : Prim2SF 1 = S754_finite false 4503599627370496 (-52).
Proof. reflexivity. Qed.

(** Multiplying a representable value by one rounds to the value. *)
Lemma SFmul_one_r (x : spec_float) :
  valid_binary x = true -> SF64mul x (Prim2SF 1) = x.
Proof.
  rewrite Prim2SF_one. destruct x as [s|s| |s m e]; try reflexivity.
  - cbn. by destruct s.
  - cbn. by destruct s.
  - unfold valid_binary, bounded, canonical_mantissa. intros H.
    apply andb_prop in H as [Hc He]. apply Z.eqb_eq in Hc.
    unfold SF64mul, SFmul. rewrite xorb_false_r, (Pos.mul_comm m).
    unfold binary_round_aux.
    assert (Hd : Z.pos (digits2_pos (4503599627370496 * m))
                 = (Z.pos (digits2_pos m) + 52)%Z).
    { cbv [Pos.mul]. cbn [digits2_pos]. rewrite !Pos2Z.inj_succ. lia. }
    assert (H1 : shr_fexp prec emax (Z.pos (4503599627370496 * m)) (e + -52) loc_Exact
                 = ({| shr_m := Z.pos m; shr_r := false; shr_s := false |}, e)).
    { unfold shr_fexp. cbn [Zdigits2]. rewrite Hd.
      replace (Z.pos (digits2_pos m) + 52 + (e + -52))%Z
        with (Z.pos (digits2_pos m) + e)%Z by lia.
      rewrite Hc. replace (e - (e + -52))%Z with 52%Z by lia.
      cbn. f_equal. lia. }
    rewrite H1. cbn [shr_m loc_of_shr_record round_nearest_even].
    assert (H2 : shr_fexp prec emax (Z.pos m) e loc_Exact
                 = ({| shr_m := Z.pos m; shr_r := false; shr_s := false |}, e)).
    { unfold shr_fexp. cbn [Zdigits2]. rewrite Hc, Z.sub_diag. reflexivity. }
    rewrite H2. cbn [shr_m]. rewrite He. reflexivity.
Qed.

Lemma mul_1_r (a : float) : a * 1 = a.
Proof.
  apply Prim2SF_inj. rewrite mul_spec. apply SFmul_one_r, Prim2SF_valid.
Qed.

(** There is one NaN. *)
Lemma is_nan_eq (a : float) : is_nan a = true -> a = nan.
Proof.
  unfold is_nan. rewrite FloatAxioms.eqb_spec. intros H. apply Prim2SF_inj.
  change (Prim2SF nan) with S754_nan.
  destruct (Prim2SF a) as [s|s| |s m e]; try reflexivity; exfalso; revert H;
    unfold SFeqb, SFcompare.
  - discriminate.
  - destruct s; discriminate.
  - rewrite Z.compare_refl, Pos.compare_cont_refl. destruct s; discriminate.
Qed.

(** Comparisons and [abs] are read off the specification of the format:
    rewrite them to their [spec_float] versions and go by the cases of
    the one number involved. *)
Ltac spec_cases a :=
  rewrite ?ltb_spec, ?FloatAxioms.eqb_spec, ?abs_spec;
  change (Prim2SF PrimFloat.zero) with (S754_zero false);
  destruct (Prim2SF a) as [[]|[]| |[] ? ?]; cbn; try done.

(** A number that is neither a zero nor NaN has a positive magnitude. *)
Lemma abs_pos_of_truthy (a : float) :
  JsNumber.truthy a = true -> JsNumber.gt (JsNumber.Math_abs a) 0 = true.
Proof.
  unfold JsNumber.truthy, JsNumber.gt, JsNumber.Math_abs, is_zero, is_nan.
  spec_cases a.
Qed.

(** What is greater than zero is not a zero. *)
Lemma gt_0_not_zero (a : float) :
  JsNumber.gt a 0 = true -> is_zero a = false.
Proof. unfold JsNumber.gt, is_zero. spec_cases a. Qed.

(** The magnitude of a number other than NaN is positive unless it is a zero. *)
Lemma gt_abs_0 (a : float) :
  is_nan a = false ->
  JsNumber.gt (JsNumber.Math_abs a) 0 = negb (is_zero (JsNumber.Math_abs a)).
Proof.
  unfold JsNumber.gt, JsNumber.Math_abs, is_zero, is_nan. spec_cases a.
Qed.
End FloatFacts.

(** * Monthly normalization, taxes and the summary *)

Module NormalizationProofs.
Import App.
Local Open Scope float_scope.

(** C6. For every amount [a], [calculateMonthlyAmount] returns [a * 30]
    for a daily entry, [a * 4] for a weekly one, [a * 1] for a monthly
    one and [a / 12] for a yearly one; the result is that product or
    quotient itself, nothing rounds it afterwards. *)
Theorem calculateMonthlyAmount_factors
    (id : string) (description : option string) (a : float)
    (taxes : option (list TaxElement.t)) (type : option EntryType)
    (date : option JsDate.t) :
  let entry frequency :=
    FinancialEntry.mk id description a frequency taxes type date in
  calculateMonthlyAmount (entry "daily") = a * 30
  /\ calculateMonthlyAmount (entry "weekly") = a * 4
  /\ calculateMonthlyAmount (entry "monthly") = a * 1
  /\ calculateMonthlyAmount (entry "yearly") = a / 12.
Proof.
  cbv zeta. repeat split; try reflexivity.
  symmetry. apply FloatFacts.mul_1_r.
Qed.

Lemma calculateMonthlyAmount_default (entry : FinancialEntry.t) :
  FinancialEntry.frequency entry <> "daily" ->
  FinancialEntry.frequency entry <> "weekly" ->
  FinancialEntry.frequency entry <> "yearly" ->
  calculateMonthlyAmount entry = FinancialEntry.amount entry.
Proof.
  intros Hd Hw Hy. unfold calculateMonthlyAmount.
  apply String.eqb_neq in Hd, Hw, Hy. by rewrite Hd, Hw, Hy.
Qed.

(** C2, as the code has it. For every entry whose frequency is outside
    the four-member enumeration, [calculateMonthlyAmount] returns the
    amount unchanged, as it does for a monthly entry: the unknown value
    takes the [default] branch of the switch, and nothing is raised. *)
Theorem calculateMonthlyAmount_unknown_frequency (entry : FinancialEntry.t) :
  FinancialEntry.frequency entry ∉ frequencies ->
  calculateMonthlyAmount entry = FinancialEntry.amount entry
  /\ calculateMonthlyAmount entry
     = calculateMonthlyAmount (set_frequency "monthly" entry).
Proof.
  intros H. unfold frequencies in H.
  rewrite !not_elem_of_cons in H. destruct H as (Hd & Hw & _ & Hy & _).
  split.
  - by apply calculateMonthlyAmount_default.
  - by rewrite calculateMonthlyAmount_default.
Qed.

Lemma calculateMonthlyAmount_unknown_frequency_witness :
  (FinancialEntry.frequency fortnightly_entry ∉ frequencies)
  /\ calculateMonthlyAmount fortnightly_entry = 100.
Proof.
  assert (H : FinancialEntry.frequency fortnightly_entry ∉ frequencies).
  { unfold frequencies. rewrite !not_elem_of_cons.
    repeat split; try discriminate. apply not_elem_of_nil. }
  split; [exact H|].
  exact (proj1 (calculateMonthlyAmount_unknown_frequency fortnightly_entry H)).
Defined.

(** C2 fails as stated: the frequency ["fortnightly"] is none of the
    four members, and the normalization of 100 at that frequency is the
    number 100 rather than an [InvalidFrequency] failure. *)
Lemma calculateMonthlyAmount_silent_default :
  Forall (fun f => String.eqb "fortnightly" f = false) frequencies
  /\ calculateMonthlyAmount fortnightly_entry = 100.
Proof. split; [repeat constructor | reflexivity]. Qed.

Lemma fold_left_sum_floats {A} (f : A -> float) (l : list A) (z : float) :
  fold_left (fun sum x => sum + f x) l z = fold_left PrimFloat.add (f <$> l) z.
Proof. revert z. induction l as [|x l IH]; intros z; [done|]. cbn. apply IH. Qed.

Lemma calculateTaxAmount_Some (m : float) (taxes : list TaxElement.t) :
  calculateTaxAmount m (Some taxes)
  = sum_floats ((fun tax => m * TaxElement.percentage tax / 100) <$> taxes).
Proof.
  unfold calculateTaxAmount, sum_floats. destruct taxes as [|t taxes]; [done|].
  cbn [length Nat.eqb]. apply fold_left_sum_floats.
Qed.

(** C7. For every monthly amount [m] and every sequence of tax
    elements, [calculateTaxAmount m taxes] is the sum over the elements
    of [m * percentage / 100]; each element is applied to the same base
    [m], so one more element adds its own [m * percentage / 100] to the
    amount of the others; and the amount is 0 for the empty list and
    for an absent list. *)
Theorem calculateTaxAmount_sum (m : float) (taxes : list TaxElement.t)
    (tax : TaxElement.t) :
  calculateTaxAmount m (Some taxes)
  = sum_floats ((fun tax => m * TaxElement.percentage tax / 100) <$> taxes)
  /\ calculateTaxAmount m (Some (taxes ++ [tax]))
     = calculateTaxAmount m (Some taxes) + m * TaxElement.percentage tax / 100
  /\ calculateTaxAmount m (Some []) = 0
  /\ calculateTaxAmount m None = 0.
Proof.
  split; [apply calculateTaxAmount_Some|].
  split; [|done].
  rewrite !calculateTaxAmount_Some. unfold sum_floats.
  by rewrite fmap_app, fold_left_app.
Qed.

Lemma fold_left_details (l : list FinancialEntry.t) (acc : IncomeDetails) :
  let step acc entry :=
    {| total := total acc + calculateMonthlyAmount entry;
       taxes := taxes acc + calculateTaxAmount (calculateMonthlyAmount entry)
                              (FinancialEntry.taxes entry) |} in
  total (fold_left step l acc)
  = fold_left PrimFloat.add (calculateMonthlyAmount <$> l) (total acc)
  /\ taxes (fold_left step l acc)
     = fold_left PrimFloat.add
         ((fun entry => calculateTaxAmount (calculateMonthlyAmount entry)
                          (FinancialEntry.taxes entry)) <$> l) (taxes acc).
Proof.
  cbv zeta. revert acc. induction l as [|e l IH]; intros acc; [done|].
  cbn [fold_left fmap list_fmap]. destruct (IH
    {| total := total acc + calculateMonthlyAmount e;
       taxes := taxes acc + calculateTaxAmount (calculateMonthlyAmount e)
                              (FinancialEntry.taxes e) |}) as [H1 H2].
  by rewrite H1, H2.
Qed.

(** C4. For every pair of income and expense entry lists, [summary]
    has [totalIncome] the sum of the monthly amounts of the income
    entries, [totalTaxes] the sum of their tax amounts, [totalExpenses]
    the sum of the monthly amounts of the expense entries, [netIncome =
    totalIncome - totalTaxes] and [balance = netIncome - totalExpenses],
    so that [balance = totalIncome - totalTaxes - totalExpenses]; and on
    the entries of scenario A the five numbers are 1000, 200, 800, 400
    and 400. *)
Theorem summary_totals (st : Entries) :
  let s := summary st in
  Summary.totalIncome s
  = sum_floats (calculateMonthlyAmount <$> incomeEntries st)
  /\ Summary.totalTaxes s
     = sum_floats ((fun entry => calculateTaxAmount (calculateMonthlyAmount entry)
                                  (FinancialEntry.taxes entry))
                    <$> incomeEntries st)
  /\ Summary.totalExpenses s
     = sum_floats (calculateMonthlyAmount <$> expenseEntries st)
  /\ Summary.netIncome s = Summary.totalIncome s - Summary.totalTaxes s
  /\ Summary.balance s = Summary.netIncome s - Summary.totalExpenses s
  /\ Summary.balance s
     = Summary.totalIncome s - Summary.totalTaxes s - Summary.totalExpenses s
  /\ summary scenario_A
     = {| Summary.totalIncome := 1000; Summary.totalTaxes := 200;
          Summary.netIncome := 800; Summary.totalExpenses := 400;
          Summary.balance := 400 |}.
Proof.
  cbv zeta. unfold summary. cbn [Summary.totalIncome Summary.totalTaxes
    Summary.totalExpenses Summary.netIncome Summary.balance].
  destruct (fold_left_details (incomeEntries st) {| total := 0; taxes := 0 |})
    as [H1 H2]. cbv zeta in H1, H2.
  repeat split; try done.
  apply fold_left_sum_floats.
Qed.

End NormalizationProofs.

(** * The entry store: updates and removal *)

Module StoreProofs.
Import App.

Section FindAndAssign.
Variable entryId : string.
Variable assign : FinancialEntry.t -> FinancialEntry.t.

Lemma find_and_assign_none (l : list FinancialEntry.t) :
  (forall e, e ∈ l -> FinancialEntry.id e <> entryId) ->
  find_and_assign entryId assign l = l.
Proof.
  intros H. unfold find_and_assign.
  assert (Hn : list_find (fun e => FinancialEntry.id e = entryId) l = None).
  { apply list_find_None, Forall_forall. exact H. }
  by rewrite Hn.
Qed.

Lemma find_and_assign_first (before after : list FinancialEntry.t)
    (entry : FinancialEntry.t) :
  (forall e, e ∈ before -> FinancialEntry.id e <> entryId) ->
  FinancialEntry.id entry = entryId ->
  find_and_assign entryId assign (before ++ entry :: after)
  = before ++ assign entry :: after.
Proof.
  intros Hb He. unfold find_and_assign.
  assert (Hf : list_find (fun e => FinancialEntry.id e = entryId)
                 (before ++ entry :: after) = Some (length before, entry)).
  { apply list_find_Some. split_and!.
    - by rewrite lookup_app_r, Nat.sub_diag.
    - exact He.
    - intros j y Hj Hlt. apply Hb.
      rewrite lookup_app_l in Hj by done. by eapply list_elem_of_lookup_2. }
  rewrite Hf.
  replace (length before) with (length before + 0) by lia.
  by rewrite insert_app_r.
Qed.
End FindAndAssign.

Lemma updates_income (assign : FinancialEntry.t -> FinancialEntry.t) :
  updates_first_match
    (fun entryId st =>
       {| incomeEntries := find_and_assign entryId assign (incomeEntries st);
          expenseEntries := expenseEntries st |})
    incomeEntries expenseEntries assign.
Proof.
  intros entryId [inc exp]. cbn. split_and!; [done| |].
  - intros H. by rewrite find_and_assign_none.
  - intros before entry after -> Hb He. by apply find_and_assign_first.
Qed.

Lemma updates_expense (assign : FinancialEntry.t -> FinancialEntry.t) :
  updates_first_match
    (fun entryId st =>
       {| incomeEntries := incomeEntries st;
          expenseEntries := find_and_assign entryId assign (expenseEntries st) |})
    expenseEntries incomeEntries assign.
Proof.
  intros entryId [inc exp]. cbn. split_and!; [done| |].
  - intros H. by rewrite find_and_assign_none.
  - intros before entry after -> Hb He. by apply find_and_assign_first.
Qed.

Lemma length_filter_id (id : string) (l : list FinancialEntry.t) :
  length (filter (fun e => FinancialEntry.id e <> id) l)
  + length (filter (fun e => FinancialEntry.id e = id) l) = length l.
Proof.
  induction l as [|e l IH]; [done|]. rewrite !filter_cons.
  destruct (decide (FinancialEntry.id e = id)) as [Heq|Hne].
  - rewrite decide_False by (intros H; by apply H). cbn. lia.
  - rewrite decide_True by done. cbn. lia.
Qed.

Lemma filter_id_removes (id : string) (l : list FinancialEntry.t) :
  filter (fun e => FinancialEntry.id e <> id) l `sublist_of` l
  /\ Forall (fun e => FinancialEntry.id e <> id)
       (filter (fun e => FinancialEntry.id e <> id) l)
  /\ (forall e, e ∈ l -> FinancialEntry.id e <> id ->
                e ∈ filter (fun e => FinancialEntry.id e <> id) l)
  /\ length (filter (fun e => FinancialEntry.id e <> id) l)
       + length (filter (fun e => FinancialEntry.id e = id) l) = length l.
Proof.
  split_and!.
  - apply sublist_filter.
  - apply Forall_forall. intros e He. by apply list_elem_of_filter in He as [? _].
  - intros e He Hne. by apply list_elem_of_filter.
  - apply length_filter_id.
Qed.

(** C10. Each of the seven update handlers, given an id that no entry
    of its list has, leaves both lists as they are; given an id that some
    entry has, it changes the one field it names in the first such entry,
    every other field of that entry, every other entry and the other list
    staying the same; and each of the two remove handlers deletes the
    entries of the given id, all of them and no other, keeping the rest
    in their order and the other list as it is. *)
Theorem handlers_frame :
  (forall taxes, updates_first_match (fun id => updateIncomeTaxes id taxes)
                   incomeEntries expenseEntries (set_taxes taxes))
  /\ (forall frequency,
        updates_first_match (fun id => updateIncomeFrequency id frequency)
          incomeEntries expenseEntries (set_frequency frequency))
  /\ (forall frequency,
        updates_first_match (fun id => updateExpenseFrequency id frequency)
          expenseEntries incomeEntries (set_frequency frequency))
  /\ (forall description,
        updates_first_match (fun id => updateIncomeDescription id description)
          incomeEntries expenseEntries (set_description description))
  /\ (forall amount,
        updates_first_match (fun id => updateIncomeAmount id amount)
          incomeEntries expenseEntries (set_amount amount))
  /\ (forall description,
        updates_first_match (fun id => updateExpenseDescription id description)
          expenseEntries incomeEntries (set_description description))
  /\ (forall amount,
        updates_first_match (fun id => updateExpenseAmount id amount)
          expenseEntries incomeEntries (set_amount amount))
  /\ (forall taxes e,
        same_but_taxes e (set_taxes taxes e)
        /\ FinancialEntry.taxes (set_taxes taxes e) = Some taxes)
  /\ (forall frequency e,
        same_but_frequency e (set_frequency frequency e)
        /\ FinancialEntry.frequency (set_frequency frequency e) = frequency)
  /\ (forall description e,
        same_but_description e (set_description description e)
        /\ FinancialEntry.description (set_description description e)
           = Some description)
  /\ (forall amount e,
        same_but_amount e (set_amount amount e)
        /\ FinancialEntry.amount (set_amount amount e) = amount)
  /\ removes_exactly removeIncome incomeEntries expenseEntries
  /\ removes_exactly removeExpense expenseEntries incomeEntries.
Proof.
  split_and!; try (intros; apply updates_income); try (intros; apply updates_expense);
    try (intros; by repeat split).
  - intros id st. split; [done|]. apply filter_id_removes.
  - intros id st. split; [done|]. apply filter_id_removes.
Qed.

Lemma handlers_frame_witness :
  incomeEntries (updateIncomeAmount "b" 5 two_incomes)
  = [entry_of "a" 10] ++ set_amount 5 (entry_of "b" 20) :: [entry_of "b" 30]
  /\ expenseEntries (updateIncomeAmount "b" 5 two_incomes) = [entry_of "b" 40]
  /\ updateIncomeAmount "c" 5 two_incomes = two_incomes.
Proof.
  pose proof (proj1 (proj2 (proj2 (proj2 (proj2 handlers_frame)))) 5%float) as H.
  split_and!.
  - apply (proj2 (proj2 (H "b" two_incomes))); [reflexivity| |reflexivity].
    intros e He. apply list_elem_of_singleton in He as ->. discriminate.
  - apply (proj1 (H "b" two_incomes)).
  - apply (proj1 (proj2 (H "c" two_incomes))).
    intros e He. cbn in He. rewrite !elem_of_cons in He.
    destruct He as [->|[->|[->|He]]]; try discriminate.
    by apply not_elem_of_nil in He.
Defined.

End StoreProofs.

(** * The statement parser *)

Module CsvProofs.
Import CsvImport.

Lemma split_cons (sep : ascii) (s : string) :
  exists h t, JsString.split sep s = h :: t.
Proof.
  induction s as [|c r IH]; cbn; [by eauto|].
  destruct (Ascii.eqb c sep); [by eauto|].
  destruct IH as (h & t & ->). by eauto.
Qed.

Lemma row_total (id line : string) : exists entry, row id line = Some entry.
Proof.
  unfold row. destruct (split_cons ";" line) as (h & t & ->). cbn. by eauto.
Qed.

Section Supply.
Variable randomUUID : nat -> string.

Lemma map_rows_emitted (rows : list string) (k : nat) :
  exists entries,
    map_rows randomUUID k rows = Some entries
    /\ filter (fun entry => keep entry) entries = emitted_rows randomUUID k rows.
Proof.
  revert k. induction rows as [|line rest IH]; intros k; cbn [map_rows emitted_rows].
  - by exists [].
  - destruct (row_total (randomUUID k) line) as [entry He].
    destruct (IH (S k)) as (entries & Hm & Hf).
    exists (entry :: entries). rewrite He, Hm. split; [done|].
    unfold emitted. rewrite He, filter_cons, Hf.
    by destruct (keep entry).
Qed.

(** The emitted entries are what the rows add, row after row: the
    callback never throws. *)
Lemma entries_of_lines_emitted (lines : list string) :
  entries_of_lines randomUUID lines
  = Some (emitted_rows randomUUID 0 (data_rows lines)).
Proof.
  unfold entries_of_lines.
  destruct (map_rows_emitted (data_rows lines) 0) as (entries & -> & ->). done.
Qed.

Lemma emitted_rows_app (rows1 rows2 : list string) (k : nat) :
  emitted_rows randomUUID k (rows1 ++ rows2)
  = emitted_rows randomUUID k rows1
    ++ emitted_rows randomUUID (k + length rows1) rows2.
Proof.
  revert k. induction rows1 as [|line rest IH]; intros k; cbn.
  - by rewrite Nat.add_0_r.
  - rewrite IH, <- app_assoc. do 3 f_equal. lia.
Qed.
End Supply.

Section Amounts.
Local Open Scope float_scope.

Lemma number_at_column (values : list string) (i : nat) :
  StatementSpec.number_of (StatementSpec.column values i)
  = if is_nan (number_at values i) then 0 else number_at values i.
Proof.
  unfold StatementSpec.number_of, StatementSpec.column, number_at.
  destruct (values !! i) as [[|c r]|]; cbn [default JsString.truthy]; try done.
Qed.

(** The callback followed by the last filter, against the words of the
    specification, on the two numbers read from the columns. *)
Lemma amount_cases (d c : float) :
  let ds := if is_nan d then 0 else d in
  let cs := if is_nan c then 0 else c in
  let amount := JsNumber.Math_abs (JsNumber.or_else d c) in
  let amount_spec := if is_zero ds then abs cs else abs ds in
  JsNumber.gt amount 0 = negb (is_zero amount_spec)
  /\ (JsNumber.gt amount 0 = true ->
      amount = amount_spec /\ JsNumber.truthy d = negb (is_zero ds)).
Proof.
  cbv zeta. unfold JsNumber.or_else, JsNumber.truthy.
  assert (Hc : JsNumber.gt (JsNumber.Math_abs c) 0
               = negb (is_zero (abs (if is_nan c then 0 else c)))
               /\ (JsNumber.gt (JsNumber.Math_abs c) 0 = true ->
                   JsNumber.Math_abs c = abs (if is_nan c then 0 else c))).
  { destruct (is_nan c) eqn:Hn.
    - apply FloatFacts.is_nan_eq in Hn as ->. by split.
    - split; [by apply FloatFacts.gt_abs_0|done]. }
  destruct (is_nan d) eqn:Hn.
  - rewrite orb_true_r. cbn. split; [apply Hc|]. intros H. split; [by apply Hc|done].
  - rewrite orb_false_r. destruct (is_zero d) eqn:Hz; cbn.
    + split; [apply Hc|]. intros H. split; [by apply Hc|done].
    + split; [by apply FloatFacts.gt_abs_0|done].
Qed.

(** One row: what it adds to the output is what the specification says
    it adds. *)
Lemma emitted_spec (id line : string) :
  emitted id line = StatementSpec.entries_of_line id line.
Proof.
  unfold emitted, StatementSpec.entries_of_line, StatementSpec.entry_of_line, row, keep.
  destruct (split_cons ";" line) as (h & t & Hs). rewrite Hs.
  set (values := h :: t).
  change (values !! 0%nat) with (Some h).
  change (StatementSpec.column values 0) with h.
  rewrite !number_at_column. cbn [FinancialEntry.amount].
  destruct (amount_cases (number_at values 8) (number_at values 9)) as [Hk He].
  cbv zeta in Hk, He. rewrite Hk.
  set (ds := if is_nan (number_at values 8) then 0 else number_at values 8) in *.
  set (cs := if is_nan (number_at values 9) then 0 else number_at values 9) in *.
  assert (Hamt : FinancialEntry.amount
            (if is_zero ds
             then {| FinancialEntry.id := id;
                     FinancialEntry.description := Some (StatementSpec.column values 2);
                     FinancialEntry.amount := abs cs;
                     FinancialEntry.frequency := "monthly";
                     FinancialEntry.taxes := Some [];
                     FinancialEntry.type := Some income;
                     FinancialEntry.date :=
                       Some (JsDate.NewDate (JsString.join "-" (rev (JsString.split "/" h)))) |}
             else {| FinancialEntry.id := id;
                     FinancialEntry.description := Some (StatementSpec.column values 2);
                     FinancialEntry.amount := abs ds;
                     FinancialEntry.frequency := "monthly";
                     FinancialEntry.taxes := Some [];
                     FinancialEntry.type := Some expense;
                     FinancialEntry.date :=
                       Some (JsDate.NewDate (JsString.join "-" (rev (JsString.split "/" h)))) |})
          = if is_zero ds then abs cs else abs ds).
  { by destruct (is_zero ds). }
  rewrite Hamt.
  destruct (is_zero (if is_zero ds then abs cs else abs ds)) eqn:Hz; [done|].
  cbn [negb] in Hk. destruct (He Hk) as [Ha Ht]. rewrite Ha, Ht.
  assert (Hd : values !! 2%nat = Some (StatementSpec.column values 2)).
  { unfold StatementSpec.column. destruct (values !! 2%nat) eqn:H2; [done|].
    exfalso. apply lookup_ge_None in H2.
    assert (H8 : values !! 8%nat = None) by (apply lookup_ge_None; lia).
    assert (H9 : values !! 9%nat = None) by (apply lookup_ge_None; lia).
    subst ds cs. unfold number_at in Hz. rewrite H8, H9 in Hz. discriminate Hz. }
  rewrite Hd. by destruct (is_zero ds).
Qed.
End Amounts.

Lemma emitted_rows_spec (randomUUID : nat -> string) (rows : list string) (k : nat) :
  emitted_rows randomUUID k rows = StatementSpec.entries_of_rows randomUUID k rows.
Proof.
  revert k. induction rows as [|line rest IH]; intros k; [done|].
  cbn [emitted_rows StatementSpec.entries_of_rows]. by rewrite emitted_spec, IH.
Qed.

(** C3. The entries the parser emits are, row after row over the
    non-blank lines after the header, the entries of section 4.4: the
    line is split on [;], columns 8 and 9 are the debit and the credit
    with an empty or unparseable field read as 0, a non-zero debit makes
    an expense of amount [abs debit] and otherwise the entry is an income
    of amount [abs credit], the frequency is monthly, the tax list is
    empty and the date is built from the [DD/MM/YYYY] tokens reversed and
    joined by [-]. The line of scenario B gives an expense of 45.50 dated
    2024-03-01 with the monthly frequency. *)
Theorem parseCSV_rows (randomUUID : nat -> string) (text : string) :
  parseCSV randomUUID text
  = Some (StatementSpec.entries_of_rows randomUUID 0
            (data_rows (JsString.split (ascii_of_nat 10) text)))
  /\ parseCSV randomUUID
       ("Date;;Label;;;;;;Debit;Credit;" +:+ LF
        +:+ "01/03/2024;;Groceries;;;;;;45.50;;")
     = Some [ {| FinancialEntry.id := randomUUID 0;
                 FinancialEntry.description := Some "Groceries";
                 FinancialEntry.amount := 45.5%float;
                 FinancialEntry.frequency := "monthly";
                 FinancialEntry.taxes := Some [];
                 FinancialEntry.type := Some expense;
                 FinancialEntry.date := Some (JsDate.NewDate "2024-03-01") |} ]
  /\ JsDate.parse "2024-03-01" = JsDate.TimeValue 1709251200000%Z.
Proof.
  split_and!.
  - unfold parseCSV. by rewrite entries_of_lines_emitted, emitted_rows_spec.
  - vm_compute. reflexivity.
  - vm_compute. reflexivity.
Qed.

Lemma emitted_erase_id (id1 id2 line : string) :
  erase_id <$> emitted id1 line = erase_id <$> emitted id2 line.
Proof.
  unfold emitted, row, keep. destruct (split_cons ";" line) as (h & t & ->).
  cbn [lookup list_lookup FinancialEntry.amount].
  by destruct (JsNumber.gt _ _).
Qed.

Lemma emitted_rows_erase_id (u1 u2 : nat -> string) (rows : list string) (k : nat) :
  erase_id <$> emitted_rows u1 k rows = erase_id <$> emitted_rows u2 k rows.
Proof.
  revert k. induction rows as [|line rest IH]; intros k; [done|].
  cbn [emitted_rows]. rewrite !fmap_app. f_equal; [apply emitted_erase_id|apply IH].
Qed.

Lemma emitted_rows_ext (u1 u2 : nat -> string) (rows : list string) (k : nat) :
  (forall i, u1 i = u2 i) -> emitted_rows u1 k rows = emitted_rows u2 k rows.
Proof.
  intros H. revert k. induction rows as [|line rest IH]; intros k; [done|].
  cbn [emitted_rows]. by rewrite H, IH.
Qed.

Lemma data_rows_sublist (lines : list string) : data_rows lines `sublist_of` lines.
Proof.
  unfold data_rows. etrans; [apply sublist_filter|apply sublist_drop].
Qed.

(** C5, as the code has it. Two runs of the parser on the same text emit
    sequences that agree in everything but the identifiers of the
    entries, which each run draws afresh from [crypto.randomUUID()]; when
    the identifiers drawn are the same the sequences are identical. The
    entries come in the order of the lines: the rows parsed are the
    non-blank lines after the header in their order, and the output is
    what the first row adds, then what the second adds, and so on. *)
Theorem parseCSV_deterministic_up_to_ids (u1 u2 : nat -> string) (text : string) :
  (fmap (M:=list) erase_id <$> parseCSV u1 text)
  = (fmap (M:=list) erase_id <$> parseCSV u2 text)
  /\ ((forall k, u1 k = u2 k) -> parseCSV u1 text = parseCSV u2 text)
  /\ (let lines := JsString.split (ascii_of_nat 10) text in
      parseCSV u1 text = Some (emitted_rows u1 0 (data_rows lines))
      /\ data_rows lines `sublist_of` lines
      /\ forall k rows1 rows2,
           emitted_rows u1 k (rows1 ++ rows2)
           = emitted_rows u1 k rows1 ++ emitted_rows u1 (k + length rows1) rows2).
Proof.
  unfold parseCSV. rewrite !entries_of_lines_emitted. split_and!.
  - cbn. f_equal. apply emitted_rows_erase_id.
  - intros H. f_equal. by apply emitted_rows_ext.
  - done.
  - apply data_rows_sublist.
  - intros. apply emitted_rows_app.
Qed.

Lemma parseCSV_deterministic_up_to_ids_witness :
  parseCSV sample_uuid one_row_statement
  = parseCSV (fun k => sample_uuid (k + 0)) one_row_statement.
Proof.
  apply (proj1 (proj2 (parseCSV_deterministic_up_to_ids
                         sample_uuid (fun k => sample_uuid (k + 0)) one_row_statement))).
  intros k. by rewrite Nat.add_0_r.
Defined.

(** C5 fails as stated: the same text parsed with two sequences of
    random identifiers gives entries with different ids. *)
Lemma parseCSV_ids_differ :
  (fmap (M:=list) FinancialEntry.id <$> parseCSV sample_uuid one_row_statement)
  = Some ["uuid-0"]
  /\ (fmap (M:=list) FinancialEntry.id <$> parseCSV (fun k => sample_uuid (S k)) one_row_statement)
     = Some ["uuid-1"].
Proof. split; vm_compute; reflexivity. Qed.

Lemma data_rows_cons (header : string) (lines : list string) :
  data_rows (header :: lines)
  = filter (fun line => JsString.truthy (JsString.trim line)) lines.
Proof. done. Qed.

(** The callback on one line, spelled out. *)
Lemma row_unfold (id line : string) :
  let values := JsString.split ";" line in
  exists v0 entry,
    values !! 0%nat = Some v0
    /\ row id line = Some entry
    /\ entry
       = {| FinancialEntry.id := id;
            FinancialEntry.description := values !! 2%nat;
            FinancialEntry.amount :=
              JsNumber.Math_abs
                (JsNumber.or_else (number_at values 8) (number_at values 9));
            FinancialEntry.frequency := "monthly";
            FinancialEntry.taxes := Some [];
            FinancialEntry.type :=
              Some (if JsNumber.truthy (number_at values 8) then expense else income);
            FinancialEntry.date :=
              Some (JsDate.NewDate (JsString.join "-" (rev (JsString.split "/" v0)))) |}
    /\ emitted id line = if keep entry then [entry] else [].
Proof.
  cbv zeta. unfold emitted, row.
  destruct (split_cons ";" line) as (h & t & ->).
  eexists h, _. split_and!; reflexivity.
Qed.

Lemma number_at_missing (values : list string) (i : nat) :
  StatementSpec.column values i = EmptyString -> number_at values i = 0%float.
Proof.
  unfold StatementSpec.column, number_at.
  destruct (values !! i) as [v|]; cbn; [by intros ->|done].
Qed.

Lemma number_at_short (values : list string) (i : nat) :
  length values <= i -> number_at values i = 0%float.
Proof.
  intros H. apply number_at_missing. unfold StatementSpec.column.
  by rewrite (proj2 (lookup_ge_None values i)).
Qed.

Lemma emitted_no_debit (id line : string) :
  JsNumber.truthy (number_at (JsString.split ";" line) 8) = false ->
  number_at (JsString.split ";" line) 9 = 0%float ->
  emitted id line = [].
Proof.
  intros Hd Hc. destruct (row_unfold id line) as (v0 & entry & _ & _ & -> & ->).
  unfold keep, JsNumber.or_else. cbn [FinancialEntry.amount]. by rewrite Hd, Hc.
Qed.

Lemma emitted_debit (id line : string) :
  JsNumber.truthy (number_at (JsString.split ";" line) 8) = true ->
  exists entry,
    emitted id line = [entry]
    /\ FinancialEntry.type entry = Some expense
    /\ FinancialEntry.amount entry
       = JsNumber.Math_abs (number_at (JsString.split ";" line) 8).
Proof.
  intros Hd. destruct (row_unfold id line) as (v0 & entry & _ & _ & -> & ->).
  unfold keep, JsNumber.or_else. cbn [FinancialEntry.amount]. rewrite Hd.
  rewrite FloatFacts.abs_pos_of_truthy by done. by eexists.
Qed.

Lemma elem_of_emitted (id line : string) (e : FinancialEntry.t) :
  e ∈ emitted id line -> row id line = Some e /\ keep e = true.
Proof.
  unfold emitted. destruct (row id line) as [entry|]; [|by intros ?%not_elem_of_nil].
  destruct (keep entry) eqn:Hk; [|by intros ?%not_elem_of_nil].
  by intros ->%list_elem_of_singleton.
Qed.

Lemma emitted_zero_amount (id line : string) (e : FinancialEntry.t) :
  row id line = Some e -> is_zero (FinancialEntry.amount e) = true ->
  emitted id line = [].
Proof.
  intros Hr Hz. unfold emitted. rewrite Hr. unfold keep.
  destruct (JsNumber.gt (FinancialEntry.amount e) 0) eqn:Hg; [|done].
  apply FloatFacts.gt_0_not_zero in Hg. congruence.
Qed.

(** C8, as the code has it. The parser never fails; it skips a line that
    is blank after trimming, as if the line were not there; it reads a
    missing debit or credit field like an empty one, as 0, so that a line
    of fewer than 10 fields has credit 0 and yields an entry exactly when
    its debit is a number other than 0 (an expense of that magnitude),
    and a line of fewer than 9 fields yields none; a line whose debit and
    credit are both empty yields no entry; and every entry whose amount is
    0 is dropped, the amounts of the emitted entries being positive. *)
Theorem parseCSV_lenient (randomUUID : nat -> string) :
  (forall text,
      parseCSV randomUUID text
      = Some (emitted_rows randomUUID 0
                (data_rows (JsString.split (ascii_of_nat 10) text))))
  /\ (forall header before blank after,
        JsString.trim blank = EmptyString ->
        entries_of_lines randomUUID (header :: before ++ blank :: after)
        = entries_of_lines randomUUID (header :: before ++ after))
  /\ (forall id line,
        length (JsString.split ";" line) < 10 ->
        let debit := number_at (JsString.split ";" line) 8 in
        number_at (JsString.split ";" line) 9 = 0%float
        /\ (JsNumber.truthy debit = false -> emitted id line = [])
        /\ (JsNumber.truthy debit = true ->
            exists entry,
              emitted id line = [entry]
              /\ FinancialEntry.type entry = Some expense
              /\ FinancialEntry.amount entry = JsNumber.Math_abs debit))
  /\ (forall id line,
        length (JsString.split ";" line) < 9 -> emitted id line = [])
  /\ (forall id line,
        StatementSpec.column (JsString.split ";" line) 8 = EmptyString ->
        StatementSpec.column (JsString.split ";" line) 9 = EmptyString ->
        emitted id line = [])
  /\ (forall id line entry,
        row id line = Some entry ->
        is_zero (FinancialEntry.amount entry) = true ->
        emitted id line = [])
  /\ (forall id line entry,
        entry ∈ emitted id line ->
        JsNumber.gt (FinancialEntry.amount entry) 0 = true
        /\ is_zero (FinancialEntry.amount entry) = false).
Proof.
  split_and!.
  - intros text. apply entries_of_lines_emitted.
  - intros header before blank after Hb.
    rewrite !entries_of_lines_emitted, !data_rows_cons.
    rewrite !filter_app, filter_cons_False; [done|]. rewrite Hb. by intros [].
  - intros id line Hlen. cbv zeta.
    assert (Hc : number_at (JsString.split ";" line) 9 = 0%float)
      by (apply number_at_short; lia).
    split_and!; [done| |].
    + intros Hd. by apply emitted_no_debit.
    + apply emitted_debit.
  - intros id line Hlen. apply emitted_no_debit.
    + by rewrite number_at_short by lia.
    + apply number_at_short. lia.
  - intros id line H8 H9. apply emitted_no_debit.
    + by rewrite number_at_missing.
    + by apply number_at_missing.
  - apply emitted_zero_amount.
  - intros id line entry [_ Hk]%elem_of_emitted. split; [done|].
    by apply FloatFacts.gt_0_not_zero.
Qed.

Lemma parseCSV_lenient_witness :
  entries_of_lines sample_uuid
    ["Date;;Label;;;;;;Debit;Credit;"; "01/03/2024;;Groceries;;;;;;45.50;;";
     "   "; "02/03/2024;;Salary;;;;;;;1000;"]
  = entries_of_lines sample_uuid
      ["Date;;Label;;;;;;Debit;Credit;"; "01/03/2024;;Groceries;;;;;;45.50;;";
       "02/03/2024;;Salary;;;;;;;1000;"].
Proof.
  apply (proj1 (proj2 (parseCSV_lenient sample_uuid))
           "Date;;Label;;;;;;Debit;Credit;" ["01/03/2024;;Groceries;;;;;;45.50;;"]
           "   " ["02/03/2024;;Salary;;;;;;;1000;"]).
  reflexivity.
Defined.

(** C8 fails as stated on a line of nine fields: the credit is missing,
    the debit is there, and the entry is emitted, not dropped. *)
Lemma nine_field_row_kept :
  length (JsString.split ";" "01/03/2024;;Groceries;;;;;;45.50") = 9
  /\ parseCSV sample_uuid
       ("Date;;Label;;;;;;Debit;Credit;" +:+ LF +:+ "01/03/2024;;Groceries;;;;;;45.50")
     = Some [ {| FinancialEntry.id := "uuid-0";
                 FinancialEntry.description := Some "Groceries";
                 FinancialEntry.amount := 45.5%float;
                 FinancialEntry.frequency := "monthly";
                 FinancialEntry.taxes := Some [];
                 FinancialEntry.type := Some expense;
                 FinancialEntry.date := Some (JsDate.NewDate "2024-03-01") |} ].
Proof. split; vm_compute; reflexivity. Qed.

(** C9, as the code has it. No row fails, whatever its date token: the
    callback returns an entry whose date is [new Date] of the tokens of
    the first field reversed and joined by [-], valid or not, and the row
    is kept or dropped by its amount alone. The rows before and after a
    row are parsed as they are without it, each with the identifier of its
    place, and the parser as a whole never fails. *)
Theorem parseCSV_date_unchecked (randomUUID : nat -> string) :
  (forall id line,
      exists v0 entry,
        JsString.split ";" line !! 0%nat = Some v0
        /\ row id line = Some entry
        /\ FinancialEntry.date entry
           = Some (JsDate.NewDate (JsString.join "-" (rev (JsString.split "/" v0))))
        /\ emitted id line = if keep entry then [entry] else [])
  /\ (forall header before line after,
        JsString.truthy (JsString.trim line) = true ->
        let n := length (data_rows (header :: before)) in
        entries_of_lines randomUUID (header :: before ++ line :: after)
        = Some (emitted_rows randomUUID 0 (data_rows (header :: before))
                ++ emitted (randomUUID n) line
                ++ emitted_rows randomUUID (S n) (data_rows (header :: after))))
  /\ (forall text, is_Some (parseCSV randomUUID text)).
Proof.
  split_and!.
  - intros id line. destruct (row_unfold id line) as (v0 & entry & H0 & Hr & -> & He).
    eexists v0, _. split_and!; [exact H0|exact Hr|reflexivity|exact He].
  - intros header before line after Hl. cbv zeta.
    rewrite entries_of_lines_emitted, !data_rows_cons.
    rewrite filter_app, filter_cons_True by (by rewrite Hl).
    rewrite emitted_rows_app. cbn [emitted_rows]. rewrite Nat.add_0_l.
    do 3 f_equal; lia.
  - intros text. unfold parseCSV. rewrite entries_of_lines_emitted. by eexists.
Qed.

Lemma parseCSV_date_unchecked_witness :
  entries_of_lines sample_uuid ("Date;;Label;;;;;;Debit;Credit;" :: bad_date_lines)
  = Some (emitted_rows sample_uuid 0
            (data_rows ["Date;;Label;;;;;;Debit;Credit;";
                        "01/03/2024;;Groceries;;;;;;45.50;;"])
          ++ emitted (sample_uuid 1) "01/13/2024;;Rent;;;;;;500;;"
          ++ emitted_rows sample_uuid 2
               (data_rows ["Date;;Label;;;;;;Debit;Credit;";
                           "02/03/2024;;Salary;;;;;;;1000;"])).
Proof.
  apply (proj1 (proj2 (parseCSV_date_unchecked sample_uuid))
           "Date;;Label;;;;;;Debit;Credit;" ["01/03/2024;;Groceries;;;;;;45.50;;"]
           "01/13/2024;;Rent;;;;;;500;;" ["02/03/2024;;Salary;;;;;;;1000;"]).
  reflexivity.
Defined.

(** C9 fails as stated: the date token [01/13/2024] names no month, the
    string handed to [new Date] is an invalid date, and the row is
    neither rejected with an [InvalidDate] error nor skipped: its entry is
    emitted between its neighbours, carrying the invalid date. *)
Lemma invalid_date_row_emitted :
  JsDate.parse "2024-13-01" = JsDate.InvalidDate
  /\ parseCSV sample_uuid
       (JsString.join LF ("Date;;Label;;;;;;Debit;Credit;" :: bad_date_lines))
     = Some [ {| FinancialEntry.id := "uuid-0";
                 FinancialEntry.description := Some "Groceries";
                 FinancialEntry.amount := 45.5%float;
                 FinancialEntry.frequency := "monthly";
                 FinancialEntry.taxes := Some [];
                 FinancialEntry.type := Some expense;
                 FinancialEntry.date := Some (JsDate.NewDate "2024-03-01") |};
              {| FinancialEntry.id := "uuid-1";
                 FinancialEntry.description := Some "Rent";
                 FinancialEntry.amount := 500%float;
                 FinancialEntry.frequency := "monthly";
                 FinancialEntry.taxes := Some [];
                 FinancialEntry.type := Some expense;
                 FinancialEntry.date := Some (JsDate.NewDate "2024-13-01") |};
              {| FinancialEntry.id := "uuid-2";
                 FinancialEntry.description := Some "Salary";
                 FinancialEntry.amount := 1000%float;
                 FinancialEntry.frequency := "monthly";
                 FinancialEntry.taxes := Some [];
                 FinancialEntry.type := Some income;
                 FinancialEntry.date := Some (JsDate.NewDate "2024-03-02") |} ].
Proof. split; vm_compute; reflexivity. Qed.

End CsvProofs.

(** * Import and restore of the backup document *)

Module RestoreProofs.
Import App.

Section Documents.
Context {E : Type}.
Variable JSON_parse : string -> option Json.value.
Variable as_entries : Json.value -> list E.

Lemma assign_when_array_cases (v : option Json.value)
    (assign : list E -> Block E unit) (st : State E) :
  assign_when_array as_entries v assign st
  = match v with
    | Some (Json.Array a) => assign (as_entries (Json.Array a)) st
    | _ => (st, inr tt)
    end.
Proof.
  unfold assign_when_array. destruct v as [[]|]; cbn; rewrite ?andb_false_r; done.
Qed.

Lemma load_document_value (text : string) (data : Json.value) (st : State E) :
  JSON_parse text = Some data -> data <> Json.Null ->
  load_document JSON_parse as_entries text st = (restored as_entries data st, inr tt).
Proof.
  intros Hp Hn. unfold load_document, bind, or_throw. rewrite Hp. cbn [ret].
  unfold restored, array_member.
  destruct (Json.get data "income") as [income|] eqn:Hi;
    [|by destruct data].
  assert (He : exists expenses, Json.get data "expenses" = Some expenses)
    by (destruct data; by eauto).
  destruct He as [expenses He]. rewrite He. cbn [ret throw].
  rewrite assign_when_array_cases.
  destruct st as [inc exp].
  destruct income as [[]|]; cbn; rewrite assign_when_array_cases;
    destruct expenses as [[]|]; done.
Qed.

Lemma load_document_error (text : string) (st : State E) :
  JSON_parse text = None \/ JSON_parse text = Some Json.Null ->
  exists error, load_document JSON_parse as_entries text st = (st, inl error).
Proof.
  unfold load_document, bind, or_throw. intros [-> | ->]; cbn; by eauto.
Qed.
End Documents.

(** C1, as the code has it. A payload that parses to a document other
    than [null] is never rejected and raises no error, whatever its
    shape: each of the two lists is replaced by the array of its own
    member and is left unchanged when that member is missing or is not
    an array, the other list being replaced all the same. An error is
    reported only when the text is not JSON or the document is [null],
    and then both lists are unchanged. In particular the document
    [{"income": "not-an-array"}] leaves all existing entries unchanged.
    This holds for the import of a file and for the restore from local
    storage alike; with no file chosen, or nothing saved, nothing
    happens. *)
Theorem restore_member_wise {E : Type} (JSON_parse : string -> option Json.value)
    (as_entries : Json.value -> list E) (text : string) (st : State E) :
  (forall data,
      JSON_parse text = Some data -> data <> Json.Null ->
      importData JSON_parse as_entries [text] st = (restored as_entries data st, [])
      /\ (JsString.truthy text = true ->
          loadFromLocalStorage JSON_parse as_entries (Some text) st
          = (restored as_entries data st, [])))
  /\ (JSON_parse text = None \/ JSON_parse text = Some Json.Null ->
      exists error,
        importData JSON_parse as_entries [text] st
        = (st, [console_error "Error importing data:" error;
                alert "Error importing data. Please check the file format."])
        /\ (JsString.truthy text = true ->
            loadFromLocalStorage JSON_parse as_entries (Some text) st
            = (st, [console_error "Error loading data from localStorage:" error])))
  /\ (forall data,
        array_member data "income" = None ->
        incomeEntries (restored as_entries data st) = incomeEntries st)
  /\ (forall data,
        array_member data "expenses" = None ->
        expenseEntries (restored as_entries data st) = expenseEntries st)
  /\ (forall data a,
        array_member data "income" = Some a ->
        incomeEntries (restored as_entries data st) = as_entries a)
  /\ (forall data a,
        array_member data "expenses" = Some a ->
        expenseEntries (restored as_entries data st) = as_entries a)
  /\ restored as_entries scenario_D_document st = st
  /\ importData JSON_parse as_entries [] st = (st, [])
  /\ loadFromLocalStorage JSON_parse as_entries None st = (st, []).
Proof.
  split_and!; [| | | | | |by destruct st|done|done].
  - intros data Hp Hn. unfold importData, loadFromLocalStorage.
    rewrite (load_document_value _ _ _ _ _ Hp Hn). split; [done|]. by intros ->.
  - intros H. destruct (load_document_error JSON_parse as_entries text st H) as [error He].
    exists error. unfold importData, loadFromLocalStorage. rewrite He.
    split; [done|]. by intros ->.
  - intros data H. unfold restored. by rewrite H.
  - intros data H. unfold restored. by rewrite H.
  - intros data a H. unfold restored. by rewrite H.
  - intros data a H. unfold restored. by rewrite H.
Qed.

Lemma restore_member_wise_witness :
  importData sample_JSON_parse elements_of [scenario_D_text] stored_entries
  = (stored_entries, [])
  /\ loadFromLocalStorage sample_JSON_parse elements_of (Some scenario_D_text)
       stored_entries
     = (stored_entries, []).
Proof.
  destruct (proj1 (restore_member_wise sample_JSON_parse elements_of
                     scenario_D_text stored_entries)
              scenario_D_document) as [H1 H2]; [reflexivity|discriminate|].
  split; [exact H1|]. apply H2. reflexivity.
Defined.

(** C1 fails as stated. The document
    [{"income": "not-an-array", "expenses": []}] is not one with two
    sequences, yet it is not rejected: no error is reported and the
    expense list is overwritten (with the empty array) while the income
    list is kept. And the document of scenario D leaves the lists
    unchanged without any error being reported either. *)
Lemma import_overwrites_one_list :
  sample_JSON_parse half_malformed_text = Some half_malformed_document
  /\ importData sample_JSON_parse elements_of [half_malformed_text] stored_entries
     = ({| incomeEntries := incomeEntries stored_entries; expenseEntries := [] |}, [])
  /\ loadFromLocalStorage sample_JSON_parse elements_of (Some half_malformed_text)
       stored_entries
     = ({| incomeEntries := incomeEntries stored_entries; expenseEntries := [] |}, [])
  /\ expenseEntries stored_entries <> []
  /\ importData sample_JSON_parse elements_of [scenario_D_text] stored_entries
     = (stored_entries, []).
Proof. split_and!; try (vm_compute; reflexivity). discriminate. Qed.

End RestoreProofs.

(** * The entry store: how the handlers compose *)

Module StoreExtras.
Import App FinancialList.

Lemma find_and_assign_cons (i : string) (assign : FinancialEntry.t -> FinancialEntry.t)
    (e : FinancialEntry.t) (l : list FinancialEntry.t) :
  find_and_assign i assign (e :: l)
  = if decide (FinancialEntry.id e = i) then assign e :: l
    else e :: find_and_assign i assign l.
Proof.
  unfold find_and_assign. cbn. case_decide; [done|].
  by destruct (list_find _ l) as [[k e']|].
Qed.

Section Assignments.
Variables (i : string) (assign : FinancialEntry.t -> FinancialEntry.t).
Hypothesis assign_id : forall e, FinancialEntry.id (assign e) = FinancialEntry.id e.

Lemma find_and_assign_ids (l : list FinancialEntry.t) :
  FinancialEntry.id <$> find_and_assign i assign l = FinancialEntry.id <$> l.
Proof using assign_id.
  induction l as [|e l IH]; [done|]. rewrite find_and_assign_cons.
  case_decide; cbn; by rewrite ?assign_id, ?IH.
Qed.

Lemma find_and_assign_twice (assign' : FinancialEntry.t -> FinancialEntry.t)
    (l : list FinancialEntry.t) :
  (forall e, assign' (assign e) = assign' e) ->
  find_and_assign i assign' (find_and_assign i assign l) = find_and_assign i assign' l.
Proof using assign_id.
  intros H. induction l as [|e l IH]; [done|]. rewrite !find_and_assign_cons.
  case_decide as He.
  - rewrite find_and_assign_cons, decide_True by (by rewrite assign_id).
    by rewrite H.
  - rewrite find_and_assign_cons, decide_False by done. by rewrite IH.
Qed.

Lemma find_and_assign_comm (j : string) (assign' : FinancialEntry.t -> FinancialEntry.t)
    (l : list FinancialEntry.t) :
  (forall e, FinancialEntry.id (assign' e) = FinancialEntry.id e) ->
  (i = j -> forall e, assign (assign' e) = assign' (assign e)) ->
  find_and_assign i assign (find_and_assign j assign' l)
  = find_and_assign j assign' (find_and_assign i assign l).
Proof using assign_id.
  intros Hid Hc. induction l as [|e l IH]; [done|].
  rewrite !find_and_assign_cons.
  destruct (decide (FinancialEntry.id e = i)) as [Hi|Hi],
           (decide (FinancialEntry.id e = j)) as [Hj|Hj];
    rewrite !find_and_assign_cons, ?Hid, ?assign_id;
    rewrite ?(decide_True _ _ Hi), ?(decide_True _ _ Hj),
            ?(decide_False _ _ Hi), ?(decide_False _ _ Hj).
  - f_equal. apply Hc. congruence.
  - done.
  - done.
  - by rewrite IH.
Qed.

Lemma filter_find_and_assign (l : list FinancialEntry.t) :
  filter (fun e => FinancialEntry.id e <> i) (find_and_assign i assign l)
  = filter (fun e => FinancialEntry.id e <> i) l.
Proof using assign_id.
  induction l as [|e l IH]; [done|]. rewrite find_and_assign_cons.
  case_decide as He.
  - rewrite !filter_cons, !decide_False; [done| |]; intros H; apply H;
      by rewrite ?assign_id.
  - by rewrite !filter_cons, IH.
Qed.

Lemma find_and_assign_filter (l : list FinancialEntry.t) :
  find_and_assign i assign (filter (fun e => FinancialEntry.id e <> i) l)
  = filter (fun e => FinancialEntry.id e <> i) l.
Proof.
  apply StoreProofs.find_and_assign_none.
  by intros e [? _]%list_elem_of_filter.
Qed.


End Assignments.

Lemma assigned_id (ev : Emit) (e : FinancialEntry.t) :
  FinancialEntry.id (assigned ev e) = FinancialEntry.id e.
Proof. by destruct ev. Qed.

Lemma income_updated (ev : Emit) (i : string) (f : Field) (st : Entries) :
  updated ev = Some (i, f) ->
  Listeners.income ev st
  = {| incomeEntries := find_and_assign i (assigned ev) (incomeEntries st);
       expenseEntries := expenseEntries st |}.
Proof. destruct ev; cbn; intros H; by simplify_eq. Qed.

Lemma expense_updated (ev : Emit) (i : string) (f : Field) (st : Entries) :
  updated ev = Some (i, f) ->
  Listeners.expense ev st
  = {| incomeEntries := incomeEntries st;
       expenseEntries :=
         match f with
         | F_taxes => expenseEntries st
         | _ => find_and_assign i (assigned ev) (expenseEntries st)
         end |}.
Proof. destruct ev, st; cbn; intros H; by simplify_eq. Qed.

(** X1. An update event changes no id: after it, under either listener,
    both lists carry the same ids at the same places as before (so they
    keep their lengths, and ids that were distinct stay distinct). *)
Theorem update_keeps_ids (ev : Emit) (st : Entries) :
  is_Some (updated ev) ->
  FinancialEntry.id <$> incomeEntries (Listeners.income ev st)
  = FinancialEntry.id <$> incomeEntries st
  /\ expenseEntries (Listeners.income ev st) = expenseEntries st
  /\ FinancialEntry.id <$> expenseEntries (Listeners.expense ev st)
     = FinancialEntry.id <$> expenseEntries st
  /\ incomeEntries (Listeners.expense ev st) = incomeEntries st.
Proof.
  intros [[i f] Hu].
  rewrite (income_updated _ _ _ _ Hu), (expense_updated _ _ _ _ Hu). cbn.
  split_and!; try done.
  - apply find_and_assign_ids, assigned_id.
  - destruct f; try done; apply find_and_assign_ids, assigned_id.
Qed.

Lemma update_keeps_ids_witness :
  FinancialEntry.id <$> incomeEntries (updateIncomeAmount "b" 5%float two_incomes)
  = ["a"; "b"; "b"].
Proof.
  exact (proj1 (update_keeps_ids (emit_updateAmount "b" 5%float) two_incomes
                  (ltac:(by eexists)))).
Defined.

Lemma assigned_twice (ev1 ev2 : Emit) (i : string) (f : Field) (e : FinancialEntry.t) :
  updated ev1 = Some (i, f) -> updated ev2 = Some (i, f) ->
  assigned ev2 (assigned ev1 e) = assigned ev2 e.
Proof. destruct ev1, ev2; cbn; intros H1 H2; by simplify_eq. Qed.

(** X2. Two updates of the same field of the same id, one after the
    other: the second value wins, the state is the one the second update
    alone gives. *)
Theorem update_last_write_wins (ev1 ev2 : Emit) (i : string) (f : Field) (st : Entries) :
  updated ev1 = Some (i, f) -> updated ev2 = Some (i, f) ->
  Listeners.income ev2 (Listeners.income ev1 st) = Listeners.income ev2 st
  /\ Listeners.expense ev2 (Listeners.expense ev1 st) = Listeners.expense ev2 st.
Proof.
  intros H1 H2.
  rewrite !(income_updated _ _ _ _ H1), !(income_updated _ _ _ _ H2).
  rewrite !(expense_updated _ _ _ _ H1), !(expense_updated _ _ _ _ H2). cbn.
  split; f_equal.
  - apply find_and_assign_twice; [apply assigned_id|].
    intros e. by eapply assigned_twice.
  - destruct f; [done|..]; (apply find_and_assign_twice; [apply assigned_id|]);
      intros e; by eapply assigned_twice.
Qed.

Lemma update_last_write_wins_witness :
  updateIncomeAmount "b" 7%float (updateIncomeAmount "b" 5%float two_incomes)
  = updateIncomeAmount "b" 7%float two_incomes.
Proof.
  exact (proj1 (update_last_write_wins (emit_updateAmount "b" 5%float)
                  (emit_updateAmount "b" 7%float) "b" F_amount two_incomes
                  eq_refl eq_refl)).
Defined.

Lemma assigned_comm (ev1 ev2 : Emit) (i j : string) (f1 f2 : Field)
    (e : FinancialEntry.t) :
  updated ev1 = Some (i, f1) -> updated ev2 = Some (j, f2) -> f1 <> f2 ->
  assigned ev1 (assigned ev2 e) = assigned ev2 (assigned ev1 e).
Proof. destruct ev1, ev2; cbn; intros H1 H2 ?; by simplify_eq. Qed.

(** X3. Two updates that look for different ids, or set different
    fields, can be applied in either order with the same result; and
    whatever one list is told commutes with whatever the other is told. *)
Theorem updates_commute (ev1 ev2 : Emit) (st : Entries) :
  (forall i j f1 f2,
      updated ev1 = Some (i, f1) -> updated ev2 = Some (j, f2) ->
      i <> j \/ f1 <> f2 ->
      Listeners.income ev1 (Listeners.income ev2 st)
      = Listeners.income ev2 (Listeners.income ev1 st)
      /\ Listeners.expense ev1 (Listeners.expense ev2 st)
         = Listeners.expense ev2 (Listeners.expense ev1 st))
  /\ Listeners.income ev1 (Listeners.expense ev2 st)
     = Listeners.expense ev2 (Listeners.income ev1 st).
Proof.
  split.
  - intros i j f1 f2 H1 H2 Hd.
    assert (Hc : i = j -> forall e,
               assigned ev1 (assigned ev2 e) = assigned ev2 (assigned ev1 e)).
    { intros Hij e. destruct Hd as [Hd|Hd]; [done|]. by eapply assigned_comm. }
    rewrite !(income_updated _ _ _ _ H1), !(income_updated _ _ _ _ H2).
    rewrite !(expense_updated _ _ _ _ H1), !(expense_updated _ _ _ _ H2). cbn.
    split; f_equal.
    + apply find_and_assign_comm; [apply assigned_id..|exact Hc].
    + destruct f1, f2; try done;
        (apply find_and_assign_comm; [apply assigned_id..|exact Hc]).
  - by destruct ev1, ev2, st.
Qed.

Lemma updates_commute_witness :
  updateIncomeAmount "a" 7%float (updateIncomeDescription "b" "Bonus" two_incomes)
  = updateIncomeDescription "b" "Bonus" (updateIncomeAmount "a" 7%float two_incomes).
Proof.
  refine (proj1 (proj1 (updates_commute (emit_updateAmount "a" 7%float)
                          (emit_updateDescription "b" "Bonus") two_incomes)
                   "a" "b" F_amount F_description eq_refl eq_refl _)).
  left. discriminate.
Defined.

Lemma filter_id_comm (i j : string) (l : list FinancialEntry.t) :
  filter (fun e => FinancialEntry.id e <> i) (filter (fun e => FinancialEntry.id e <> j) l)
  = filter (fun e => FinancialEntry.id e <> j) (filter (fun e => FinancialEntry.id e <> i) l).
Proof.
  rewrite !list_filter_filter. apply list_filter_iff. tauto.
Qed.

Lemma filter_id_idemp (i : string) (l : list FinancialEntry.t) :
  filter (fun e => FinancialEntry.id e <> i) (filter (fun e => FinancialEntry.id e <> i) l)
  = filter (fun e => FinancialEntry.id e <> i) l.
Proof.
  rewrite list_filter_filter. apply list_filter_iff. tauto.
Qed.

(** X4. Removal is final and order-free: removing an id twice is
    removing it once, removals of two ids commute, an update for a
    removed id changes nothing, and removing an id after updating it
    is removing it from the state before the update. *)
Theorem remove_absorbs (i j : string) (ev : Emit) (f : Field) (st : Entries) :
  removeIncome i (removeIncome i st) = removeIncome i st
  /\ removeExpense i (removeExpense i st) = removeExpense i st
  /\ removeIncome i (removeIncome j st) = removeIncome j (removeIncome i st)
  /\ removeExpense i (removeExpense j st) = removeExpense j (removeExpense i st)
  /\ (updated ev = Some (i, f) ->
      Listeners.income ev (removeIncome i st) = removeIncome i st
      /\ Listeners.expense ev (removeExpense i st) = removeExpense i st
      /\ removeIncome i (Listeners.income ev st) = removeIncome i st
      /\ removeExpense i (Listeners.expense ev st) = removeExpense i st).
Proof.
  unfold removeIncome, removeExpense. cbn. split_and!.
  - by rewrite filter_id_idemp.
  - by rewrite filter_id_idemp.
  - by rewrite filter_id_comm.
  - by rewrite filter_id_comm.
  - intros Hu.
    rewrite !(income_updated _ _ _ _ Hu), !(expense_updated _ _ _ _ Hu). cbn.
    split_and!; f_equal.
    + apply find_and_assign_filter.
    + destruct f; [done|..]; apply find_and_assign_filter.
    + apply filter_find_and_assign, assigned_id.
    + destruct f; [done|..]; apply filter_find_and_assign, assigned_id.
Qed.

Lemma remove_absorbs_witness :
  updateIncomeAmount "b" 7%float (removeIncome "b" two_incomes)
  = removeIncome "b" two_incomes.
Proof.
  exact (proj1 (proj2 (proj2 (proj2 (proj2
           (remove_absorbs "b" "a" (emit_updateAmount "b" 7%float) F_amount
              two_incomes)))) eq_refl)).
Defined.




End StoreExtras.

(** * The summary: what it reads and how it grows *)

Module SummaryExtras.
Import App FinancialList.
Local Open Scope float_scope.

Lemma summary_unfold (st : Entries) :
  summary st
  = let total := fold_left PrimFloat.add (calculateMonthlyAmount <$> incomeEntries st) 0 in
    let taxes :=
      fold_left PrimFloat.add
        ((fun entry => calculateTaxAmount (calculateMonthlyAmount entry)
                         (FinancialEntry.taxes entry)) <$> incomeEntries st) 0 in
    let expenses :=
      fold_left PrimFloat.add (calculateMonthlyAmount <$> expenseEntries st) 0 in
    {| Summary.totalIncome := total; Summary.totalExpenses := expenses;
       Summary.totalTaxes := taxes; Summary.netIncome := total - taxes;
       Summary.balance := total - taxes - expenses |}.
Proof.
  unfold summary. cbv zeta.
  destruct (NormalizationProofs.fold_left_details (incomeEntries st)
              {| total := 0; taxes := 0 |}) as [H1 H2].
  cbv zeta in H1, H2. rewrite H1, H2.
  by rewrite (NormalizationProofs.fold_left_sum_floats calculateMonthlyAmount).
Qed.

(** X6. Adding an entry continues the sums: an income adds its monthly
    amount to the total income and its tax amount to the total taxes, an
    expense adds its monthly amount to the total expenses, each to the
    right of what has been added so far, and the net income and the
    balance are taken from the new totals. *)
Theorem summary_after_add (e : FinancialEntry.t) (st : Entries) :
  let s := summary st in
  let m := calculateMonthlyAmount e in
  let t := calculateTaxAmount m (FinancialEntry.taxes e) in
  summary (addIncome e st)
  = {| Summary.totalIncome := Summary.totalIncome s + m;
       Summary.totalTaxes := Summary.totalTaxes s + t;
       Summary.totalExpenses := Summary.totalExpenses s;
       Summary.netIncome := Summary.totalIncome s + m - (Summary.totalTaxes s + t);
       Summary.balance :=
         Summary.totalIncome s + m - (Summary.totalTaxes s + t)
         - Summary.totalExpenses s |}
  /\ summary (addExpense e st)
     = {| Summary.totalIncome := Summary.totalIncome s;
          Summary.totalTaxes := Summary.totalTaxes s;
          Summary.totalExpenses := Summary.totalExpenses s + m;
          Summary.netIncome := Summary.netIncome s;
          Summary.balance := Summary.netIncome s - (Summary.totalExpenses s + m) |}.
Proof.
  cbv zeta. rewrite !summary_unfold. cbv zeta. unfold addIncome, addExpense. cbn.
  by rewrite !fmap_app, !fold_left_app.
Qed.

Lemma calculateTaxAmount_default (m : float) (taxes : option (list TaxElement.t)) :
  calculateTaxAmount m taxes = calculateTaxAmount m (Some (default [] taxes)).
Proof. by destruct taxes. Qed.

Lemma same_as_income_sums (l l' : list FinancialEntry.t) :
  Forall2 same_as_income l l' ->
  calculateMonthlyAmount <$> l = calculateMonthlyAmount <$> l'
  /\ (fun entry => calculateTaxAmount (calculateMonthlyAmount entry)
                     (FinancialEntry.taxes entry)) <$> l
     = (fun entry => calculateTaxAmount (calculateMonthlyAmount entry)
                       (FinancialEntry.taxes entry)) <$> l'.
Proof.
  induction 1 as [|e e' l l' (Ha & Hf & Ht) _ [IH1 IH2]]; [done|].
  cbn. rewrite IH1, IH2.
  rewrite (calculateTaxAmount_default _ (FinancialEntry.taxes e)), Ht.
  rewrite <- calculateTaxAmount_default.
  unfold calculateMonthlyAmount. by rewrite Ha, Hf.
Qed.

Lemma same_as_expense_sums (l l' : list FinancialEntry.t) :
  Forall2 same_as_expense l l' ->
  calculateMonthlyAmount <$> l = calculateMonthlyAmount <$> l'.
Proof.
  induction 1 as [|e e' l l' (Ha & Hf) _ IH]; [done|].
  cbn. rewrite IH. unfold calculateMonthlyAmount. by rewrite Ha, Hf.
Qed.

Lemma summary_same (st st' : Entries) :
  Forall2 same_as_income (incomeEntries st) (incomeEntries st') ->
  Forall2 same_as_expense (expenseEntries st) (expenseEntries st') ->
  summary st = summary st'.
Proof.
  intros Hi He. rewrite !summary_unfold.
  destruct (same_as_income_sums _ _ Hi) as [-> ->].
  by rewrite (same_as_expense_sums _ _ He).
Qed.

(** X7. The summary reads the amount, the frequency and the taxes of
    the incomes, and the amount and the frequency of the expenses, and
    nothing else: two states whose lists agree place by place on these
    fields (an absent tax list counting as an empty one) have the same
    summary, whatever their ids, descriptions, types and dates, and
    whatever taxes their expenses carry. *)
Theorem summary_reads_only (st st' : Entries) :
  Forall2 same_as_income (incomeEntries st) (incomeEntries st') ->
  Forall2 same_as_expense (expenseEntries st) (expenseEntries st') ->
  summary st = summary st'.
Proof.
  intros Hi He. rewrite !summary_unfold.
  destruct (same_as_income_sums _ _ Hi) as [-> ->].
  by rewrite (same_as_expense_sums _ _ He).
Qed.

Lemma Forall2_find_and_assign (R : relation FinancialEntry.t) (i : string)
    (assign : FinancialEntry.t -> FinancialEntry.t) (l : list FinancialEntry.t) :
  Reflexive R -> (forall e, R e (assign e)) ->
  Forall2 R l (find_and_assign i assign l).
Proof.
  intros HR Ha. induction l as [|e l IH]; [constructor|].
  rewrite StoreExtras.find_and_assign_cons. case_decide.
  - constructor; [apply Ha|]. by apply Forall_Forall2_diag, Forall_true.
  - by constructor.
Qed.

Global Instance same_as_income_refl : Reflexive same_as_income.
Proof. by intros e. Qed.

Global Instance same_as_expense_refl : Reflexive same_as_expense.
Proof. by intros e. Qed.

Lemma summary_reads_only_witness :
  summary (updateExpenseDescription "b" "Rent" two_incomes) = summary two_incomes.
Proof.
  apply summary_reads_only.
  - cbn. apply Forall_Forall2_diag, Forall_true. reflexivity.
  - cbn. repeat constructor.
Defined.

(** X8. Editing never reaches the summary through a description: after
    an [updateDescription] event, under either listener and whatever the
    id and the text, the summary is what it was. *)
Theorem description_edit_keeps_summary (entryId description : string) (st : Entries) :
  summary (Listeners.income (emit_updateDescription entryId description) st)
  = summary st
  /\ summary (Listeners.expense (emit_updateDescription entryId description) st)
     = summary st.
Proof.
  split; symmetry; apply summary_same; cbn;
    try (apply Forall_Forall2_diag, Forall_true; reflexivity);
    by apply Forall2_find_and_assign; [apply _|].
Qed.

End SummaryExtras.

(** * The statement parser: its rows, its output and the import *)

Module CsvExtras.
Import CsvImport CsvProofs.

Lemma gt_0_not_nan (a : float) : JsNumber.gt a 0 = true -> is_nan a = false.
Proof.
  intros Hg. destruct (is_nan a) eqn:Hn; [|done].
  apply FloatFacts.is_nan_eq in Hn as ->. discriminate Hg.
Qed.

Lemma abs_falsy (a : float) :
  JsNumber.truthy a = false -> JsNumber.gt (JsNumber.Math_abs a) 0 = false.
Proof.
  unfold JsNumber.truthy. destruct (is_nan a) eqn:Hn.
  - by apply FloatFacts.is_nan_eq in Hn as ->.
  - rewrite orb_false_r. unfold JsNumber.gt, JsNumber.Math_abs, is_zero.
    FloatFacts.spec_cases a.
Qed.

Lemma emitted_imported (id line : string) (e : FinancialEntry.t) :
  e ∈ emitted id line -> FinancialEntry.id e = id /\ imported_entry e.
Proof.
  intros [Hr Hk]%elem_of_emitted.
  destruct (row_unfold id line) as (v0 & entry & H0 & Hr' & He & _).
  rewrite Hr in Hr'. injection Hr' as <-. unfold keep in Hk.
  assert (Hn := gt_0_not_nan _ Hk). rewrite He in Hk, Hn |- *.
  cbn in Hk, Hn |- *. split; [done|]. unfold imported_entry. cbn.
  split_and!; try done.
  - destruct (JsString.split ";" line !! 2%nat) eqn:H2; [by eexists|].
    exfalso. apply lookup_ge_None in H2.
    rewrite !number_at_short in Hk by lia. discriminate Hk.
  - destruct (JsNumber.truthy _); by eauto.
Qed.

Lemma emitted_rows_Forall (P : FinancialEntry.t -> Prop) (u : nat -> string)
    (rows : list string) (k : nat) :
  (forall id line e, e ∈ emitted id line -> P e) ->
  Forall P (emitted_rows u k rows).
Proof.
  intros H. revert k. induction rows as [|line rest IH]; intros k; [constructor|].
  cbn. apply Forall_app. split; [|apply IH].
  apply Forall_forall. intros e He. by eapply H.
Qed.

Lemma parseCSV_imported (randomUUID : nat -> string) (text : string) :
  exists entries,
    parseCSV randomUUID text = Some entries /\ Forall imported_entry entries.
Proof.
  eexists. split; [apply entries_of_lines_emitted|].
  apply emitted_rows_Forall. intros id line e He.
  by apply emitted_imported in He as [_ ?].
Qed.

(** X9. Every entry the parser emits is an entry as the interface
    declares it: its description is a string (never [undefined], though
    the callback reads a column that a short row does not have), its
    amount is a number above 0 (never NaN), its frequency is monthly, its
    tax list is empty and it has a type and a date. *)
Theorem parseCSV_entries_imported (randomUUID : nat -> string) (text : string) :
  exists entries,
    parseCSV randomUUID text = Some entries /\ Forall imported_entry entries.
Proof.
  eexists. split; [apply entries_of_lines_emitted|].
  apply emitted_rows_Forall. intros id line e He.
  by apply emitted_imported in He as [_ ?].
Qed.

Lemma emitted_rows_ids (u : nat -> string) (rows : list string) (k : nat) :
  FinancialEntry.id <$> emitted_rows u k rows `sublist_of` u <$> seq k (length rows).
Proof.
  revert k. induction rows as [|line rest IH]; intros k; [done|].
  cbn [emitted_rows length seq]. rewrite fmap_app, fmap_cons.
  pose proof (emitted_imported (u k) line) as He.
  destruct (emitted (u k) line) as [|e [|e' l]] eqn:Hem.
  - cbn. apply sublist_cons, IH.
  - cbn. destruct (He e) as [-> _]; [by left|]. apply sublist_skip, IH.
  - exfalso. revert Hem. unfold emitted.
    destruct (row (u k) line); [|done]. by destruct (keep _).
Qed.

(** X10. When the identifiers drawn for the rows of a statement are
    pairwise distinct, so are the ids of the emitted entries: a dropped
    row uses up its identifier, and no identifier is given twice. *)
Theorem parseCSV_ids_distinct (randomUUID : nat -> string) (text : string)
    (entries : list FinancialEntry.t) :
  NoDup (randomUUID
           <$> seq 0 (length (data_rows (JsString.split (ascii_of_nat 10) text)))) ->
  parseCSV randomUUID text = Some entries ->
  NoDup (FinancialEntry.id <$> entries).
Proof.
  intros Hn Hp. unfold parseCSV in Hp. rewrite entries_of_lines_emitted in Hp.
  injection Hp as <-. exact (sublist_NoDup _ _ Hn (emitted_rows_ids _ _ _)).
Qed.

Lemma parseCSV_ids_distinct_witness :
  NoDup (FinancialEntry.id
           <$> default [] (parseCSV sample_uuid
                             (JsString.join LF ("Date" :: bad_date_lines)))).
Proof.
  refine (parseCSV_ids_distinct sample_uuid
            (JsString.join LF ("Date" :: bad_date_lines)) _ _ _).
  - vm_compute. repeat constructor; rewrite ?elem_of_cons, ?elem_of_nil;
      intros H; repeat (destruct H as [H|H]; [discriminate H|]); done.
  - vm_compute. reflexivity.
Defined.

Lemma split_free (c : ascii) (s : string) :
  occurs c s = false -> JsString.split c s = [s].
Proof.
  induction s as [|x r IH]; [done|]. cbn [occurs JsString.split].
  destruct (Ascii.eqb x c); [done|]. cbn [orb]. intros H. by rewrite IH.
Qed.

Lemma split_app (c : ascii) (a b : string) :
  occurs c a = false ->
  JsString.split c (a +:+ String c b) = a :: JsString.split c b.
Proof.
  induction a as [|x r IH].
  - intros _. change (EmptyString +:+ String c b) with (String c b).
    cbn [JsString.split]. by rewrite Ascii.eqb_refl.
  - change (String x r +:+ String c b) with (String x (r +:+ String c b)).
    cbn [occurs JsString.split].
    destruct (Ascii.eqb x c); [done|]. cbn [orb]. intros H. by rewrite IH.
Qed.

Lemma append_assoc (a b c : string) : (a +:+ b) +:+ c = a +:+ b +:+ c.
Proof.
  induction a as [|x r IH]; [done|].
  change ((String x r +:+ b) +:+ c) with (String x ((r +:+ b) +:+ c)).
  by rewrite IH.
Qed.

Lemma occurs_app (c : ascii) (a b : string) :
  occurs c (a +:+ b) = occurs c a || occurs c b.
Proof.
  induction a as [|x r IH]; [done|].
  change (String x r +:+ b) with (String x (r +:+ b)). cbn [occurs].
  by rewrite IH, orb_assoc.
Qed.

(** X11. The first line of the text is never read: two texts that
    differ in their first line only give the same entries, and a text of
    one line (the empty text too) gives none. A statement without a
    header line loses its first row. *)
Theorem parseCSV_skips_first_line (randomUUID : nat -> string)
    (first first' body : string) :
  occurs (ascii_of_nat 10) first = false ->
  occurs (ascii_of_nat 10) first' = false ->
  parseCSV randomUUID (first +:+ LF +:+ body)
  = parseCSV randomUUID (first' +:+ LF +:+ body)
  /\ parseCSV randomUUID first = Some [].
Proof.
  intros H H'. unfold parseCSV.
  change (LF +:+ body) with (String (ascii_of_nat 10) body).
  rewrite (split_app _ first), (split_app _ first'), (split_free _ first) by done.
  by rewrite !entries_of_lines_emitted, !data_rows_cons.
Qed.

Lemma parseCSV_skips_first_line_witness :
  parseCSV sample_uuid ("01/03/2024;;Groceries;;;;;;45.50;;" +:+ LF
                        +:+ "02/03/2024;;Salary;;;;;;;1000;")
  = parseCSV sample_uuid ("Date;;Label" +:+ LF +:+ "02/03/2024;;Salary;;;;;;;1000;").
Proof.
  exact (proj1 (parseCSV_skips_first_line sample_uuid
                  "01/03/2024;;Groceries;;;;;;45.50;;" "Date;;Label"
                  "02/03/2024;;Salary;;;;;;;1000;" eq_refl eq_refl)).
Defined.

(** X12. The two amount columns of a row decide what it gives. A debit
    that is a number other than 0 makes the row an expense of that
    magnitude, whatever the credit holds; with no such debit, a credit
    that is a number other than 0 makes it an income of that magnitude;
    with neither, the row gives nothing. The sign of the number is lost. *)
Theorem row_debit_before_credit (id line : string) :
  let debit := number_at (JsString.split ";" line) 8 in
  let credit := number_at (JsString.split ";" line) 9 in
  (JsNumber.truthy debit = true ->
   exists entry,
     emitted id line = [entry]
     /\ FinancialEntry.type entry = Some expense
     /\ FinancialEntry.amount entry = JsNumber.Math_abs debit)
  /\ (JsNumber.truthy debit = false -> JsNumber.truthy credit = true ->
      exists entry,
        emitted id line = [entry]
        /\ FinancialEntry.type entry = Some income
        /\ FinancialEntry.amount entry = JsNumber.Math_abs credit)
  /\ (JsNumber.truthy debit = false -> JsNumber.truthy credit = false ->
      emitted id line = []).
Proof.
  cbv zeta. split; [apply emitted_debit|].
  destruct (row_unfold id line) as (v0 & entry & _ & _ & -> & ->).
  unfold keep, JsNumber.or_else. cbn [FinancialEntry.amount].
  split; intros Hd Hc; rewrite Hd.
  - rewrite FloatFacts.abs_pos_of_truthy by done. by eexists.
  - by rewrite abs_falsy.
Qed.

Lemma row_debit_before_credit_witness :
  exists entry,
    emitted "id" ";;Both;;;;;;-45.50;1000" = [entry]
    /\ FinancialEntry.type entry = Some expense
    /\ FinancialEntry.amount entry
       = JsNumber.Math_abs (number_at (JsString.split ";" ";;Both;;;;;;-45.50;1000") 8).
Proof.
  exact (proj1 (row_debit_before_credit "id" ";;Both;;;;;;-45.50;1000") eq_refl).
Defined.

(** X13. The date of a row is built from the text of its first field
    and nothing checks it: a field [d/m/y] of three tokens gives
    [new Date] of [y-m-d] whatever the tokens are, and a field without a
    slash is handed to [new Date] as it is. *)
Theorem row_date_tokens (id d m y rest : string) :
  occurs "/" d = false -> occurs "/" m = false -> occurs "/" y = false ->
  occurs ";" d = false -> occurs ";" m = false -> occurs ";" y = false ->
  (exists entry,
      row id (d +:+ "/" +:+ m +:+ "/" +:+ y +:+ ";" +:+ rest) = Some entry
      /\ FinancialEntry.date entry
         = Some (JsDate.NewDate (y +:+ "-" +:+ m +:+ "-" +:+ d)))
  /\ (exists entry,
        row id (d +:+ ";" +:+ rest) = Some entry
        /\ FinancialEntry.date entry = Some (JsDate.NewDate d)).
Proof.
  intros Hd Hm Hy Hd' Hm' Hy'. split.
  - destruct (row_unfold id (d +:+ "/" +:+ m +:+ "/" +:+ y +:+ ";" +:+ rest))
      as (v0 & entry & H0 & Hr & -> & _).
    eexists. split; [exact Hr|]. cbn [FinancialEntry.date].
    replace (d +:+ "/" +:+ m +:+ "/" +:+ y +:+ ";" +:+ rest)
      with ((d +:+ "/" +:+ m +:+ "/" +:+ y) +:+ String ";" rest) in H0
      by (by rewrite !append_assoc).
    rewrite split_app in H0
      by (rewrite !occurs_app, Hd', Hm', Hy'; reflexivity).
    injection H0 as <-.
    change (d +:+ "/" +:+ m +:+ "/" +:+ y)
      with (d +:+ String "/" (m +:+ String "/" y)).
    by rewrite !split_app, split_free.
  - destruct (row_unfold id (d +:+ ";" +:+ rest)) as (v0 & entry & H0 & Hr & -> & _).
    eexists. split; [exact Hr|]. cbn [FinancialEntry.date].
    change (d +:+ ";" +:+ rest) with (d +:+ String ";" rest) in H0.
    rewrite split_app in H0 by done. injection H0 as <-.
    by rewrite split_free.
Qed.

Lemma row_date_tokens_witness :
  exists entry,
    row "id" ("31" +:+ "/" +:+ "02" +:+ "/" +:+ "24" +:+ ";" +:+ ";x") = Some entry
    /\ FinancialEntry.date entry
       = Some (JsDate.NewDate ("24" +:+ "-" +:+ "02" +:+ "-" +:+ "31")).
Proof.
  exact (proj1 (row_date_tokens "id" "31" "02" "24" ";x"
                  eq_refl eq_refl eq_refl eq_refl eq_refl eq_refl)).
Defined.

End CsvExtras.

(** * From the statement to the store and the summary *)

Module ImportExtras.
Import App CsvImport.
Local Open Scope float_scope.

Lemma filter_types_perm (l : list FinancialEntry.t) :
  Forall imported_entry l ->
  filter (fun e => FinancialEntry.type e = Some income) l
  ++ filter (fun e => FinancialEntry.type e = Some expense) l ≡ₚ l.
Proof.
  induction 1 as [|e l (_ & _ & _ & _ & _ & Ht & _) _ IH]; [done|].
  rewrite !filter_cons. destruct Ht as [Ht|Ht]; rewrite Ht.
  - rewrite decide_True, decide_False by done. cbn. by rewrite IH.
  - rewrite decide_False, decide_True by done.
    by rewrite <- Permutation_middle, IH.
Qed.

(** X14. Every entry parsed from a statement lands in the store, once:
    the import keeps the entries that were there, in front, appends the
    parsed incomes to one list and the parsed expenses to the other, each
    in the order of the statement, and the two appended runs together
    are the parsed entries, none lost and none doubled. An entry without
    a type, which the parser never makes, would be dropped. *)
Theorem csv_import_lands (randomUUID : nat -> string) (text : string) (st : Entries) :
  exists entries incomes expenses,
    parseCSV randomUUID text = Some entries
    /\ handleCsvImport entries st
       = {| incomeEntries := incomeEntries st ++ incomes;
            expenseEntries := expenseEntries st ++ expenses |}
    /\ incomes ++ expenses ≡ₚ entries
    /\ incomes `sublist_of` entries
    /\ expenses `sublist_of` entries
    /\ Forall (fun e => FinancialEntry.type e = Some income) incomes
    /\ Forall (fun e => FinancialEntry.type e = Some expense) expenses
    /\ (forall e, FinancialEntry.type e = None -> handleCsvImport [e] st = st).
Proof.
  destruct (CsvExtras.parseCSV_imported randomUUID text) as (entries & Hp & Hw).
  exists entries, (filter (fun e => FinancialEntry.type e = Some income) entries),
    (filter (fun e => FinancialEntry.type e = Some expense) entries).
  split_and!; try done.
  - by apply filter_types_perm.
  - apply sublist_filter.
  - apply sublist_filter.
  - apply Forall_forall. by intros e [? _]%list_elem_of_filter.
  - apply Forall_forall. by intros e [? _]%list_elem_of_filter.
  - intros e He. unfold handleCsvImport. rewrite !filter_cons, He.
    rewrite !decide_False by done. rewrite !filter_nil, !app_nil_r. by destruct st.
Qed.

Lemma add_zero_cases (x : float) : x + 0 = x \/ (x = neg_zero /\ x + 0 = 0).
Proof.
  destruct (Prim2SF x) as [[]|[]| |[] m e] eqn:Hx;
    try (left; apply Prim2SF_inj; rewrite add_spec, Hx; reflexivity).
  right. assert (x = neg_zero) as -> by (by apply Prim2SF_inj). by split.
Qed.

Lemma fold_add_zeros {A} (l : list A) (x : float) :
  fold_left PrimFloat.add ((fun _ => 0) <$> l) x = x
  \/ (x = neg_zero /\ fold_left PrimFloat.add ((fun _ => 0) <$> l) x = 0).
Proof.
  revert x. induction l as [|a l IH]; intros x; [by left|]. cbn.
  destruct (add_zero_cases x) as [->|[-> ->]]; [apply IH|].
  right. split; [done|]. by destruct (IH 0) as [->|[[=] _]].
Qed.

Lemma imported_monthly (l : list FinancialEntry.t) :
  Forall imported_entry l ->
  calculateMonthlyAmount <$> l = FinancialEntry.amount <$> l
  /\ (fun entry => calculateTaxAmount (calculateMonthlyAmount entry)
                     (FinancialEntry.taxes entry)) <$> l
     = (fun _ => 0) <$> l.
Proof.
  induction 1 as [|e l (_ & _ & _ & Hf & Ht & _) _ [IH1 IH2]]; [done|].
  cbn. rewrite IH1, IH2, Ht. unfold calculateMonthlyAmount. by rewrite Hf.
Qed.

(** X15. What a statement import does to the summary: the amounts of
    the parsed incomes are added, one by one and as they are (monthly,
    factor 1), to the total income, those of the parsed expenses to the
    total expenses, and the total taxes stay what they were (a negative
    zero becoming a positive one). *)
Theorem csv_import_summary (randomUUID : nat -> string) (text : string) (st : Entries) :
  exists entries,
    parseCSV randomUUID text = Some entries
    /\ let incomes := filter (fun e => FinancialEntry.type e = Some income) entries in
       let expenses := filter (fun e => FinancialEntry.type e = Some expense) entries in
       let s := summary st in
       let s' := summary (handleCsvImport entries st) in
       Summary.totalIncome s'
       = fold_left PrimFloat.add (FinancialEntry.amount <$> incomes)
           (Summary.totalIncome s)
       /\ Summary.totalExpenses s'
          = fold_left PrimFloat.add (FinancialEntry.amount <$> expenses)
              (Summary.totalExpenses s)
       /\ (Summary.totalTaxes s' = Summary.totalTaxes s
           \/ (Summary.totalTaxes s = neg_zero /\ Summary.totalTaxes s' = 0)).
Proof.
  destruct (CsvExtras.parseCSV_imported randomUUID text) as (entries & Hp & Hw).
  exists entries. split; [done|]. cbv zeta.
  rewrite !SummaryExtras.summary_unfold. cbv zeta. unfold handleCsvImport. cbn.
  rewrite !fmap_app, !fold_left_app.
  assert (Hi : Forall imported_entry
                 (filter (fun e => FinancialEntry.type e = Some income) entries)).
  { apply Forall_forall. intros e [_ He]%list_elem_of_filter.
    by eapply Forall_forall in Hw. }
  assert (He : Forall imported_entry
                 (filter (fun e => FinancialEntry.type e = Some expense) entries)).
  { apply Forall_forall. intros e [_ He]%list_elem_of_filter.
    by eapply Forall_forall in Hw. }
  destruct (imported_monthly _ Hi) as [-> ->].
  destruct (imported_monthly _ He) as [-> _].
  split_and!; [done..|]. apply fold_add_zeros.
Qed.

End ImportExtras.

(** * Import of the backup document, repeated *)

Module RestoreExtras.
Import App.

Lemma restored_twice {E} (as_entries : Json.value -> list E) (data : Json.value)
    (st : State E) :
  restored as_entries data (restored as_entries data st) = restored as_entries data st.
Proof.
  unfold restored. cbn.
  by destruct (array_member data "income"), (array_member data "expenses").
Qed.

Lemma importData_cases {E} (JSON_parse : string -> option Json.value)
    (as_entries : Json.value -> list E) (text : string) :
  (exists data,
      JSON_parse text = Some data /\ data <> Json.Null
      /\ forall st, importData JSON_parse as_entries [text] st
                    = (restored as_entries data st, []))
  \/ (exists error,
        forall st, importData JSON_parse as_entries [text] st
                   = (st, [console_error "Error importing data:" error;
                           alert "Error importing data. Please check the file format."])).
Proof.
  destruct (JSON_parse text) as [data|] eqn:Hp.
  - assert (Hv : data <> Json.Null ->
                 forall st, importData JSON_parse as_entries [text] st
                            = (restored as_entries data st, [])).
    { intros Hn st. unfold importData.
      by rewrite (RestoreProofs.load_document_value _ _ _ _ _ Hp Hn). }
    destruct data; try (left; eexists; split_and!; [done|done|by apply Hv]).
    right. exists TypeError. intros st.
    unfold importData, load_document, bind, or_throw. by rewrite Hp.
  - right. exists SyntaxError. intros st.
    unfold importData, load_document, bind, or_throw. by rewrite Hp.
Qed.

(** X16. Importing a file a second time changes nothing more: the state
    and what is reported are those of the first import. And a document in
    which both members are arrays decides the state alone: nothing of the
    entries held before survives it. *)
Theorem import_again {E : Type} (JSON_parse : string -> option Json.value)
    (as_entries : Json.value -> list E) (text : string) (st st' : State E) :
  importData JSON_parse as_entries [text]
    (importData JSON_parse as_entries [text] st).1
  = importData JSON_parse as_entries [text] st
  /\ (forall data a b,
        JSON_parse text = Some data ->
        array_member data "income" = Some a ->
        array_member data "expenses" = Some b ->
        importData JSON_parse as_entries [text] st
        = importData JSON_parse as_entries [text] st'
        /\ (importData JSON_parse as_entries [text] st).1
           = {| incomeEntries := as_entries a; expenseEntries := as_entries b |}).
Proof.
  split.
  - destruct (importData_cases JSON_parse as_entries text)
      as [(data & Hp & Hn & Hv)|[error He]].
    + rewrite !Hv. cbn. by rewrite restored_twice.
    + by rewrite !He.
  - intros data a b Hp Ha Hb.
    assert (Hn : data <> Json.Null) by (intros ->; discriminate Ha).
    unfold importData. rewrite !(RestoreProofs.load_document_value _ _ _ _ _ Hp Hn).
    unfold restored. by rewrite Ha, Hb.
Qed.

Lemma import_again_witness :
  importData sample_JSON_parse elements_of [half_malformed_text]
    (importData sample_JSON_parse elements_of [half_malformed_text] stored_entries).1
  = importData sample_JSON_parse elements_of [half_malformed_text] stored_entries.
Proof.
  exact (proj1 (import_again sample_JSON_parse elements_of half_malformed_text
                  stored_entries stored_entries)).
Defined.

End RestoreExtras.

(** * The list component and the store behind it *)

Module ListExtras.
Import App FinancialList.

Lemma removeTax_fold (removed : list string) (s : State) :
  let s' := fold_left (fun s taxId => removeTax taxId s) removed s in
  currentTaxes s' = filter (fun tax => TaxElement.id tax ∉ removed) (currentTaxes s)
  /\ selectedEntryId s' = selectedEntryId s.
Proof.
  cbv zeta. revert s. induction removed as [|x removed IH]; intros s.
  - cbn. split; [|done]. symmetry. induction (currentTaxes s) as [|t l IHl]; [done|].
    rewrite filter_cons, decide_True by apply not_elem_of_nil. by rewrite IHl.
  - cbn [fold_left]. destruct (IH (removeTax x s)) as [-> ->]. split; [|done].
    cbn. rewrite list_filter_filter. apply list_filter_iff.
    intros t. rewrite not_elem_of_cons. tauto.
Qed.

Lemma filter_not_in_nil (l : list TaxElement.t) :
  filter (fun tax => TaxElement.id tax ∉ ([] : list string)) l = l.
Proof.
  induction l as [|t l IH]; [done|].
  rewrite filter_cons, decide_True by apply not_elem_of_nil. by rewrite IH.
Qed.

(** X17. The tax dialog, from the button to the store. Opened on an
    income entry that is the first of its id, with any taxes of the copy
    removed and then saved, it leaves in the store that entry with
    exactly its former taxes minus the removed ones, in their order, and
    nothing else changed; the expense list cannot be reached by it. Saved
    with nothing removed, it leaves the summary as it was, although an
    absent tax list has become an empty one. *)
Theorem tax_dialog_saves (entry : FinancialEntry.t) (s : State) (removed : list string)
    (before after : list FinancialEntry.t) (st : Entries) :
  incomeEntries st = before ++ entry :: after ->
  fresh (FinancialEntry.id entry) before ->
  JsString.truthy (FinancialEntry.id entry) = true ->
  let s' := fold_left (fun s taxId => removeTax taxId s) removed (openTaxModal entry s) in
  let kept := filter (fun tax => TaxElement.id tax ∉ removed)
                (default [] (FinancialEntry.taxes entry)) in
  Listeners.deliver Listeners.income (saveTaxes s').2 st
  = {| incomeEntries := before ++ set_taxes kept entry :: after;
       expenseEntries := expenseEntries st |}
  /\ Listeners.deliver Listeners.expense (saveTaxes s').2 st = st
  /\ (removed = [] ->
      summary (Listeners.deliver Listeners.income (saveTaxes s').2 st) = summary st).
Proof.
  intros Hl Hf Hid. cbv zeta.
  destruct (removeTax_fold removed (openTaxModal entry s)) as [Hc Hs].
  cbv zeta in Hc, Hs. unfold saveTaxes. cbn [snd]. rewrite Hs, Hc. cbn [openTaxModal
    selectedEntryId currentTaxes]. rewrite Hid.
  cbn [Listeners.deliver fold_left Listeners.income Listeners.expense].
  assert (Hst : updateIncomeTaxes (FinancialEntry.id entry)
                  (filter (fun tax => TaxElement.id tax ∉ removed)
                     (default [] (FinancialEntry.taxes entry))) st
                = {| incomeEntries :=
                       before ++ set_taxes
                         (filter (fun tax => TaxElement.id tax ∉ removed)
                            (default [] (FinancialEntry.taxes entry))) entry :: after;
                     expenseEntries := expenseEntries st |}).
  { unfold updateIncomeTaxes. rewrite Hl.
    by rewrite StoreProofs.find_and_assign_first. }
  unfold Listeners.deliver. cbn [fold_left Listeners.income Listeners.expense].
  split_and!; [exact Hst|done|].
  intros ->. rewrite Hst, filter_not_in_nil. symmetry.
  apply SummaryExtras.summary_same; cbn [incomeEntries expenseEntries].
  - rewrite Hl. apply Forall2_app; [by apply Forall_Forall2_diag, Forall_true|].
    constructor; [done|]. by apply Forall_Forall2_diag, Forall_true.
  - by apply Forall_Forall2_diag, Forall_true.
Qed.

Lemma tax_dialog_saves_witness :
  Listeners.deliver Listeners.income
    (saveTaxes (fold_left (fun s taxId => removeTax taxId s) ["t1"]
                  (openTaxModal taxed_entry closed_list))).2
    {| incomeEntries := [taxed_entry]; expenseEntries := [] |}
  = {| incomeEntries :=
         [] ++ set_taxes
                 (filter (fun tax => TaxElement.id tax ∉ ["t1"])
                    (default [] (FinancialEntry.taxes taxed_entry))) taxed_entry
               :: [];
       expenseEntries := [] |}.
Proof.
  apply (proj1 (tax_dialog_saves taxed_entry closed_list ["t1"] [] []
                  {| incomeEntries := [taxed_entry]; expenseEntries := [] |}
                  eq_refl (fun e H => False_ind _ (not_elem_of_nil e H)) eq_refl)).
Defined.

Lemma Forall_find_and_assign (P : FinancialEntry.t -> Prop) (i : string)
    (assign : FinancialEntry.t -> FinancialEntry.t) (l : list FinancialEntry.t) :
  (forall e, P (assign e)) -> Forall P l -> Forall P (find_and_assign i assign l).
Proof.
  intros Ha. induction 1 as [|e l He Hl IH]; [constructor|].
  rewrite StoreExtras.find_and_assign_cons. case_decide; constructor; by auto.
Qed.

(** X18. A description saved from the list is never blank: when every
    entry has a description that is not blank, it still has one after
    [saveDescription], whatever was typed and for whatever id. A text that
    is blank after trimming is not sent at all and the store stays as it
    is; any other text is stored as typed, untrimmed. *)
Theorem saveDescription_keeps_described (id : string) (s s' : State)
    (evs : list Emit) (st : Entries) :
  saveDescription id s = Some (s', evs) ->
  (Forall described (incomeEntries st) ->
   Forall described (incomeEntries (Listeners.deliver Listeners.income evs st)))
  /\ (Forall described (expenseEntries st) ->
      Forall described (expenseEntries (Listeners.deliver Listeners.expense evs st)))
  /\ exists text,
       editingDescription s = Some text
       /\ (JsString.truthy (JsString.trim text) = false ->
           Listeners.deliver Listeners.income evs st = st
           /\ Listeners.deliver Listeners.expense evs st = st)
       /\ (JsString.truthy (JsString.trim text) = true ->
           Listeners.deliver Listeners.income evs st
           = updateIncomeDescription id text st
           /\ Listeners.deliver Listeners.expense evs st
              = updateExpenseDescription id text st).
Proof.
  unfold saveDescription. destruct (editingDescription s) as [text|]; [|done].
  intros [= <- <-]. destruct (JsString.truthy (JsString.trim text)) eqn:Ht.
  - split_and!.
    + cbn. apply Forall_find_and_assign. intros e. by exists text.
    + cbn. apply Forall_find_and_assign. intros e. by exists text.
    + exists text. split_and!; [done|congruence|]. intros _. by split.
  - split_and!; [done..|]. exists text. split_and!; [done| |congruence].
    intros _. by split.
Qed.

Lemma saveDescription_keeps_described_witness :
  Forall described
    (incomeEntries (Listeners.deliver Listeners.income
                      (default (typed_blank, []) (saveDescription "a" typed_blank)).2
                      two_incomes)).
Proof.
  apply (proj1 (saveDescription_keeps_described "a" typed_blank _ _ two_incomes eq_refl)).
  repeat constructor; by exists "Salary".
Defined.

End ListExtras.

(** * Signs of the totals *)

Module SignExtras.
Import App.
Local Open Scope float_scope.

Lemma not_negative_spec (a : float) :
  not_negative a <-> sf_not_negative (Prim2SF a).
Proof.
  unfold not_negative. rewrite leb_spec.
  change (Prim2SF 0) with (S754_zero false).
  destruct (Prim2SF a) as [[]|[]| |[] m e]; cbn; split; done.
Qed.

Lemma shr_1_m (mrs : shr_record) : (0 <= shr_m mrs -> 0 <= shr_m (shr_1 mrs))%Z.
Proof. destruct mrs as [[|[p|p|]|p] r s]; cbn; lia. Qed.

Lemma iter_pos_m (p : positive) (mrs : shr_record) :
  (0 <= shr_m mrs -> 0 <= shr_m (iter_pos shr_1 p mrs))%Z.
Proof.
  revert mrs. induction p as [p IH|p IH|]; intros mrs H; cbn.
  - by apply IH, IH, shr_1_m.
  - by apply IH, IH.
  - by apply shr_1_m.
Qed.

Lemma shr_fexp_m (m e : Z) (l : location) :
  (0 <= m -> 0 <= shr_m (shr_fexp prec emax m e l).1)%Z.
Proof.
  intros H. unfold shr_fexp, shr.
  assert (H0 : (0 <= shr_m (shr_record_of_loc m l))%Z)
    by (by destruct l as [|[]]).
  destruct (_ - e)%Z; cbn [fst]; [done| |done]. by apply iter_pos_m.
Qed.

Lemma round_nearest_even_m (m : Z) (l : location) :
  (0 <= m -> 0 <= round_nearest_even m l)%Z.
Proof. intros H. destruct l as [|[]]; cbn; [done| |done|lia]. destruct (Z.even m); lia. Qed.

(** Rounding keeps what is not negative not negative. *)
Lemma binary_round_aux_sign (m e : Z) (l : location) :
  (0 <= m)%Z -> sf_not_negative (binary_round_aux prec emax false m e l).
Proof.
  intros H. unfold binary_round_aux.
  pose proof (shr_fexp_m m e l H) as H1.
  destruct (shr_fexp prec emax m e l) as [mrs' e']. cbn [fst] in H1.
  pose proof (shr_fexp_m _ e' loc_Exact
                (round_nearest_even_m _ (loc_of_shr_record mrs') H1)) as H2.
  destruct (shr_fexp prec emax _ e' loc_Exact) as [mrs'' e'']. cbn [fst] in H2.
  destruct (shr_m mrs''); [done| |lia]. by destruct (_ <=? _)%Z.
Qed.

Lemma binary_round_sign (m : positive) (e : Z) :
  sf_not_negative (binary_round prec emax false m e).
Proof.
  unfold binary_round. destruct (shl_align _ _ _) as [mz ez].
  by apply binary_round_aux_sign.
Qed.

Lemma SFadd_sign (x y : spec_float) :
  sf_not_negative x -> sf_not_negative y -> sf_not_negative (SF64add x y).
Proof.
  destruct x as [sx|[]| |[] mx ex], y as [sy|[]| |[] my ey]; try done.
  - intros _ _. by destruct sx, sy.
  - intros _ _. unfold SF64add, SFadd.
    destruct (shl_align mx ex _) as [mx' ex'], (shl_align my ey _) as [my' ey'].
    cbn. apply binary_round_sign.
Qed.

Lemma SFmul_sign (x : spec_float) (m : positive) (e : Z) :
  sf_not_negative x -> sf_not_negative (SF64mul x (S754_finite false m e)).
Proof.
  destruct x as [sx|[]| |[] mx ex]; try done. intros _.
  by apply binary_round_aux_sign.
Qed.

Lemma SFdiv_sign (x : spec_float) (m : positive) (e : Z) :
  sf_not_negative x -> sf_not_negative (SF64div x (S754_finite false m e)).
Proof.
  destruct x as [sx|[]| |[] mx ex]; try done. intros _.
  unfold SF64div, SFdiv, SFdiv_core_binary. cbn [xorb].
  match goal with
  | |- context [Z.div_eucl ?a ?b] =>
      pose proof (Z.div_eucl_eq a b ltac:(done)) as Heq;
      pose proof (Z.mod_pos_bound a b ltac:(done)) as Hm;
      unfold Z.modulo in Hm;
      assert (Ha : (0 <= a)%Z);
      [|destruct (Z.div_eucl a b) as [q r]]
  end.
  - destruct (_ - _ - _)%Z; [done| |done]. by apply Z.shiftl_nonneg.
  - apply binary_round_aux_sign. nia.
Qed.

Lemma add_sign (a b : float) : not_negative a -> not_negative b -> not_negative (a + b).
Proof. rewrite !not_negative_spec, add_spec. apply SFadd_sign. Qed.

Lemma calculateMonthlyAmount_sign (entry : FinancialEntry.t) :
  not_negative (FinancialEntry.amount entry) ->
  not_negative (calculateMonthlyAmount entry).
Proof.
  intros H. unfold calculateMonthlyAmount.
  repeat (destruct (String.eqb _ _)); [| | |done];
    apply not_negative_spec; apply not_negative_spec in H.
  - rewrite mul_spec. by apply SFmul_sign.
  - rewrite mul_spec. by apply SFmul_sign.
  - rewrite div_spec. by apply SFdiv_sign.
Qed.

Lemma fold_add_sign (l : list float) (z : float) :
  not_negative z -> Forall not_negative l -> not_negative (fold_left PrimFloat.add l z).
Proof.
  intros Hz Hl. revert z Hz. induction Hl as [|x l Hx _ IH]; intros z Hz; [done|].
  cbn. by apply IH, add_sign.
Qed.

(** X19. Amounts that are not negative give totals that are not
    negative: when the amount of every entry is a number [>= 0], the
    total income and the total expenses are numbers [>= 0] (possibly
    [Infinity], never NaN), whatever the frequencies and the taxes. *)
Theorem totals_not_negative (st : Entries) :
  Forall (fun e => not_negative (FinancialEntry.amount e)) (incomeEntries st) ->
  Forall (fun e => not_negative (FinancialEntry.amount e)) (expenseEntries st) ->
  not_negative (Summary.totalIncome (summary st))
  /\ not_negative (Summary.totalExpenses (summary st)).
Proof.
  intros Hi He. rewrite SummaryExtras.summary_unfold. cbn.
  split; (apply fold_add_sign; [done|]); apply Forall_fmap;
    (eapply Forall_impl; [eassumption|]); intros e; apply calculateMonthlyAmount_sign.
Qed.

Lemma totals_not_negative_witness :
  not_negative (Summary.totalIncome (summary scenario_A))
  /\ not_negative (Summary.totalExpenses (summary scenario_A)).
Proof.
  apply totals_not_negative; repeat constructor.
Defined.

End SignExtras.
